(** * Monaco Input view pane: a shallow embedding and its properties

    The development follows
    [src/vs/workbench/contrib/monacoInput/browser/monacoInputView.ts]
    (class [MonacoInputViewPane]) and the contribution file that registers
    the [monacoInput.clear] and [monacoInput.save] title-bar actions.

    Layout:
    - [JS]: the fragment of ECMAScript string semantics the pane relies on
      (UTF-16 code units, [trim], [||], number-to-string);
    - [Host]: the host workbench as seen from the pane: the command bus,
      the timer queue, the console, the clocks and the editor widget
      interface;
    - [MonacoInput]: the pane itself and the two actions;
    - the properties. *)

From Stdlib Require Import List ZArith NArith Bool Lia String Ascii.
From Stdlib Require DecimalZ.
Import ListNotations.

Set Implicit Arguments.

(* ================================================================== *)
(** ** ECMAScript strings *)
(* ================================================================== *)

Module JS.

(** A JavaScript string is a sequence of UTF-16 code units. *)
Definition jsstring := list N.

(** An ASCII literal of the source, one code unit per character. *)
Definition lit (s : string) : jsstring :=
  map N_of_ascii (list_ascii_of_string s).
Arguments lit s%_string.

(** [\n] and the double quote, which the literals of the source escape. *)
Definition nl : jsstring := [10%N].
Definition dq : jsstring := [34%N].

(** The snake emoji U+1F40D of the source, as its surrogate pair. *)
Definition snake : jsstring := [55357%N; 56333%N].

(** WhiteSpace and LineTerminator code points of ECMAScript, the ones
    [String.prototype.trim] strips. *)
Definition isWhiteSpace (c : N) : bool :=
  existsb (N.eqb c)
    [9; 10; 11; 12; 13; 32; 160; 5760; 8232; 8233; 8239; 8287; 12288; 65279]%N
  || ((8192 <=? c)%N && (c <=? 8202)%N).

Fixpoint trimStart (s : jsstring) : jsstring :=
  match s with
  | [] => []
  | c :: r => if isWhiteSpace c then trimStart r else s
  end.

Definition trimEnd (s : jsstring) : jsstring := rev (trimStart (rev s)).

Definition trim (s : jsstring) : jsstring := trimEnd (trimStart s).

(** ToBoolean on a string: the empty string is the only falsy one. *)
Definition truthy (s : jsstring) : bool :=
  match s with [] => false | _ :: _ => true end.

(** [x || d] for [x : string | undefined]. *)
Definition or_else (x : option jsstring) (d : jsstring) : jsstring :=
  match x with
  | Some s => if truthy s then s else d
  | None => d
  end.

(** [o?.m()]: [undefined] when the receiver is [undefined]. *)
Definition optCall {A B : Type} (o : option A) (m : A -> B) : option B :=
  match o with
  | Some a => Some (m a)
  | None => None
  end.

(** [o?.m(...)] for a method called for its effect on the receiver. *)
Definition optDo {A : Type} (o : option A) (m : A -> A) : option A :=
  optCall o m.

(** Decimal digits, most significant first. *)
Fixpoint digits (d : Decimal.uint) : jsstring :=
  match d with
  | Decimal.Nil => []
  | Decimal.D0 r => 48%N :: digits r
  | Decimal.D1 r => 49%N :: digits r
  | Decimal.D2 r => 50%N :: digits r
  | Decimal.D3 r => 51%N :: digits r
  | Decimal.D4 r => 52%N :: digits r
  | Decimal.D5 r => 53%N :: digits r
  | Decimal.D6 r => 54%N :: digits r
  | Decimal.D7 r => 55%N :: digits r
  | Decimal.D8 r => 56%N :: digits r
  | Decimal.D9 r => 57%N :: digits r
  end.

(** Number::toString on an integral Number below 10^21 in magnitude, the
    range of every time value: plain decimal, [-] for negatives. *)
Definition numberToString (z : Z) : jsstring :=
  match Z.to_int z with
  | Decimal.Pos d => digits d
  | Decimal.Neg d => 45%N :: digits d
  end.

(** [p] occurs in [s] as a contiguous run of code units. *)
Definition includes (s p : jsstring) : Prop :=
  exists before after, s = before ++ p ++ after.

Fixpoint startsWith (s p : jsstring) {struct p} : bool :=
  match p, s with
  | [], _ => true
  | _ :: _, [] => false
  | a :: p', b :: s' => N.eqb a b && startsWith s' p'
  end.

Fixpoint includesb (s p : jsstring) : bool :=
  startsWith s p ||
  match s with
  | [] => false
  | _ :: s' => includesb s' p
  end.

(** [s.split('\n')]. *)
Fixpoint splitLines (s : jsstring) : list jsstring :=
  match s with
  | [] => [[]]
  | c :: r =>
      if N.eqb c 10 then [] :: splitLines r
      else match splitLines r with
           | [] => [[c]]
           | l :: ls => (c :: l) :: ls
           end
  end.

(** [ls.join('\n')]. *)
Fixpoint joinLines (ls : list jsstring) : jsstring :=
  match ls with
  | [] => []
  | [l] => l
  | l :: ls' => l ++ nl ++ joinLines ls'
  end.

End JS.
Import JS.

(* ================================================================== *)
(** ** The host workbench, as the pane sees it *)
(* ================================================================== *)

Module Host.

(** [dom.$(selector)]: an element is known by the selector it was made
    from; nothing of the pane's logic reads the DOM back. *)
Record HTMLElement := { selector : string }.

Definition dom_create (sel : string) : HTMLElement := {| selector := sel |}.

(** [URI.from({ scheme, path })]. *)
Record URI := { scheme : string; path : string }.

(** What [modelService.createModel(value, languageSelection, resource)] is
    given. *)
Record ITextModel := {
  initialValue : jsstring;
  languageId : string;
  resource : URI
}.

Definition createModel (value : jsstring) (language : string) (uri : URI)
  : ITextModel :=
  {| initialValue := value; languageId := language; resource := uri |}.

(** [languageService.createById(id)] selects the language by its id. *)
Definition createById (id : string) : string := id.

Record IEditorOptions := {
  minimap_enabled : bool;
  lineNumbers : string;
  wordWrap : string;
  fontSize : Z;
  scrollBeyondLastLine : bool;
  automaticLayout : bool
}.

Record ICodeEditorWidgetOptions := {
  isSimpleWidget : bool;
  contributions : list string
}.

(** Modelled from the spec: the embedded editor widget ([ICodeEditor],
    instantiated from [CodeEditorWidget]) is the host's component and is
    not part of the sources at hand.  The spec describes its state as a
    text buffer, "a mutable string plus cursor/selection state, entirely
    owned and managed by the host's editor component", pre-loaded from the
    model it is given, and records the smoke check "text set equals text
    read back".  The interface lists the methods the pane calls; the laws
    say that the text read is the text last loaded or set, and that
    focusing and laying out leave the text alone. *)
Class ICodeEditor (E : Type) := {
  createInstance :
    HTMLElement -> IEditorOptions -> ICodeEditorWidgetOptions -> E;
  setModel : ITextModel -> E -> E;
  getValue : E -> jsstring;
  setValue : jsstring -> E -> E;
  focus : E -> E;
  layout : E -> E;
  getValue_setModel : forall m e, getValue (setModel m e) = initialValue m;
  getValue_setValue : forall v e, getValue (setValue v e) = v;
  getValue_focus : forall e, getValue (focus e) = getValue e;
  getValue_layout : forall e, getValue (layout e) = getValue e
}.

(** The argument object of a command: none, or [{ text: ... }]. *)
Inductive CommandArgs :=
| NoArgs
| TextArgs (text : jsstring).

(** One call of [commandService.executeCommand], stamped with the reading
    of the timer clock when it was made. *)
Record Invocation := {
  invokedAt : Z;
  commandId : string;
  commandArgs : CommandArgs
}.

Section Runtime.

(** The callbacks handed to [setTimeout], as data: [C] names the closures
    of the program, each with the values it captured. *)
Variable C : Type.

Record Timer := {
  registeredAt : Z;
  delay : Z;
  callback : C
}.

Definition due (tm : Timer) : Z := registeredAt tm + delay tm.

(** The part of the host the pane acts on: the wall clock [Date.now()]
    reads, the monotonic clock timers run on (milliseconds), the calls made
    on the command bus in order, the pending timers, and the console. *)
Record State := {
  dateNow : Z;
  uptime : Z;
  invoked : list Invocation;
  timers : list Timer;
  console : list (list jsstring)
}.

(** [commandService.executeCommand(id, args)]; the promise it returns is
    dropped by every caller in the program. *)
Definition executeCommand (id : string) (args : CommandArgs) (s : State)
  : State :=
  {| dateNow := dateNow s;
     uptime := uptime s;
     invoked := invoked s ++
       [{| invokedAt := uptime s; commandId := id; commandArgs := args |}];
     timers := timers s;
     console := console s |}.

(** [setTimeout(cb, ms)]; the handle it returns is dropped by every caller
    in the program. *)
Definition setTimeout (cb : C) (ms : Z) (s : State) : State :=
  {| dateNow := dateNow s;
     uptime := uptime s;
     invoked := invoked s;
     timers := timers s ++
       [{| registeredAt := uptime s; delay := ms; callback := cb |}];
     console := console s |}.

(** [console.log(...args)]. *)
Definition console_log (args : list jsstring) (s : State) : State :=
  {| dateNow := dateNow s;
     uptime := uptime s;
     invoked := invoked s;
     timers := timers s;
     console := console s ++ [args] |}.

(** Time passes: the timer clock moves forward by [d], the wall clock
    reads [now']. *)
Definition advance (d now' : Z) (s : State) : State :=
  {| dateNow := now';
     uptime := uptime s + d;
     invoked := invoked s;
     timers := timers s;
     console := console s |}.

Fixpoint removeAt {A : Type} (i : nat) (l : list A) : list A :=
  match i, l with
  | _, [] => []
  | O, _ :: r => r
  | S j, a :: r => a :: removeAt j r
  end.

(** The event loop takes the [i]-th pending timer off the queue once it is
    due. *)
Definition takeTimer (i : nat) (s : State) : option (C * State) :=
  match nth_error (timers s) i with
  | Some tm =>
      if due tm <=? uptime s then
        Some (callback tm,
              {| dateNow := dateNow s;
                 uptime := uptime s;
                 invoked := invoked s;
                 timers := removeAt i (timers s);
                 console := console s |})
      else None
  | None => None
  end%Z.

End Runtime.

End Host.

(* ================================================================== *)
(** ** The Monaco Input view pane *)
(* ================================================================== *)

Module MonacoInput.
Import Host.

(** [MonacoInputViewPane.ID]. *)
Definition ID : string := "workbench.views.monacoInput".

(** The arrow function [runPython] hands to [setTimeout]; it captures
    [tempFilePath] and [code]. *)
Inductive Closure :=
| RunPythonTimeout (tempFilePath code : jsstring).

Section Pane.

Context {E : Type} `{ICodeEditor E}.

(** The private fields of the class.  [_textModel] refers to the model by
    its resource; the text itself is held by the editor the model is
    attached to.  The disposables registered with the base class are the
    host's business. *)
Record MonacoInputViewPane := {
  _editor : option E;
  _editorContainer : option HTMLElement;
  _textModel : option URI
}.

(** A pane as constructed, before the host asks it to render. *)
Definition newPane : MonacoInputViewPane :=
  {| _editor := None; _editorContainer := None; _textModel := None |}.

Definition createEditor (this : MonacoInputViewPane) : MonacoInputViewPane :=
  match _editorContainer this with
  | None => this
  | Some container =>
      let textModel :=
        createModel
          (lit "# Type your Python code here" ++ nl ++
           lit "print(" ++ dq ++ lit "Hello from Python!" ++ dq ++ lit ")" ++
           nl)
          (createById "python")
          {| scheme := "inmemory"; path := "/monaco-python.py" |} in
      let editorOptions :=
        {| minimap_enabled := false;
           lineNumbers := "on";
           wordWrap := "on";
           fontSize := 14;
           scrollBeyondLastLine := false;
           automaticLayout := true |} in
      let editor :=
        createInstance container editorOptions
          {| isSimpleWidget := false; contributions := [] |} in
      let editor := setModel textModel editor in
      {| _editor := Some editor;
         _editorContainer := Some container;
         _textModel := Some (resource textModel) |}
  end.

(** [renderBody]: the toolbar and the Run button go to the DOM, the editor
    container is created and the editor with it.  The click listener
    registered last is the [ClickRun] event below. *)
Definition renderBody (this : MonacoInputViewPane) : MonacoInputViewPane :=
  createEditor
    {| _editor := _editor this;
       _editorContainer := Some (dom_create ".monaco-input-container");
       _textModel := _textModel this |}.

(** The constants [runPython] computes on the way; [now] is what
    [Date.now()] returned. *)
Definition tempFileName (now : Z) : jsstring :=
  lit "vscode_monaco_" ++ numberToString now ++ lit ".py".

Definition tempFilePath (now : Z) : jsstring :=
  lit "/tmp/" ++ tempFileName now.

Definition cleanCommand (tempFilePath code : jsstring) : jsstring :=
  lit "clear; cat > " ++ tempFilePath ++ lit " << 'EOF' 2>/dev/null" ++ nl ++
  code ++ nl ++
  lit "EOF" ++ nl ++
  lit "echo " ++ dq ++ snake ++ lit " Running Python..." ++ dq ++ nl ++
  lit "python3 " ++ tempFilePath ++ lit " 2>&1" ++ nl ++
  lit "rm " ++ tempFilePath ++ lit " 2>/dev/null".

Definition runPython (this : MonacoInputViewPane) (s : State Closure)
  : State Closure :=
  let code := or_else (optCall (_editor this) Host.getValue) [] in
  if negb (truthy (trim code)) then s
  else
    let path := tempFilePath (dateNow s) in
    let s := executeCommand "workbench.action.terminal.new" NoArgs s in
    setTimeout (RunPythonTimeout path code) 150 s.

(** The body of the arrow function, run by the event loop. *)
Definition runClosure (c : Closure) (s : State Closure) : State Closure :=
  match c with
  | RunPythonTimeout path code =>
      executeCommand "workbench.action.terminal.sendSequence"
        (TextArgs (cleanCommand path code ++ nl)) s
  end.

Definition getValue (this : MonacoInputViewPane) : jsstring :=
  or_else (optCall (_editor this) Host.getValue) [].

Definition setValue (value : jsstring) (this : MonacoInputViewPane)
  : MonacoInputViewPane :=
  {| _editor := optDo (_editor this) (Host.setValue value);
     _editorContainer := _editorContainer this;
     _textModel := _textModel this |}.

Definition clearContent (this : MonacoInputViewPane) : MonacoInputViewPane :=
  let editor :=
    optDo (_editor this)
      (Host.setValue
         (lit "# Type your Python code here" ++ nl ++
          lit "print(" ++ dq ++ lit "Hello from Python!" ++ dq ++ lit ")" ++
          nl)) in
  let editor := optDo editor Host.focus in
  {| _editor := editor;
     _editorContainer := _editorContainer this;
     _textModel := _textModel this |}.

(** [focus] and [setVisible]: what the overrides add to the base class
    methods, which are the host's. *)
Definition focus (this : MonacoInputViewPane) : MonacoInputViewPane :=
  {| _editor := optDo (_editor this) Host.focus;
     _editorContainer := _editorContainer this;
     _textModel := _textModel this |}.

Definition setVisible (visible : bool) (this : MonacoInputViewPane)
  : MonacoInputViewPane :=
  if visible then
    {| _editor := optDo (_editor this) layout;
       _editorContainer := _editorContainer this;
       _textModel := _textModel this |}
  else this.

(** The workbench window: the pane the view registry holds for [ID],
    whether it is the active view, and the host state. *)
Record Workbench := {
  view : MonacoInputViewPane;
  viewActive : bool;
  host : State Closure
}.

(** [viewsService.getActiveViewWithId(id)]: the pane when it is the active
    view with that id, [null] otherwise. *)
Definition getActiveViewWithId (id : string) (w : Workbench)
  : option MonacoInputViewPane :=
  if String.eqb id ID && viewActive w then Some (view w) else None.

(** [ClearMonacoInputAction.run], the action [monacoInput.clear]. *)
Definition ClearMonacoInputAction_run (w : Workbench) : Workbench :=
  match getActiveViewWithId ID w with
  | Some v =>
      {| view := clearContent v; viewActive := viewActive w; host := host w |}
  | None => w
  end.

(** [SaveMonacoInputAction.run], the action [monacoInput.save]. *)
Definition SaveMonacoInputAction_run (w : Workbench) : Workbench :=
  match getActiveViewWithId ID w with
  | Some v =>
      let content := getValue v in
      {| view := view w;
         viewActive := viewActive w;
         host := console_log [lit "Saving content:"; content] (host w) |}
  | None => w
  end.

(** What can happen to the window, one event at a time. *)
Inductive Event :=
| Render                         (* the host renders the pane's body *)
| SetActive (b : bool)           (* the view gains or loses the active slot *)
| ClickRun                       (* click on the Run button *)
| ClearAction                    (* title-bar action monacoInput.clear *)
| SaveAction                     (* title-bar action monacoInput.save *)
| CallSetValue (v : jsstring)    (* a caller of the public setValue *)
| UserEdit (e : E)               (* the user edits inside the widget *)
| Tick (d now' : Z)              (* time passes *)
| Fire (i : nat)                 (* the event loop runs a due timer *)
| FocusView                      (* the host focuses the pane *)
| ShowView (visible : bool).     (* the host shows or hides the pane *)

Definition withView (v : MonacoInputViewPane) (w : Workbench) : Workbench :=
  {| view := v; viewActive := viewActive w; host := host w |}.

Definition withHost (s : State Closure) (w : Workbench) : Workbench :=
  {| view := view w; viewActive := viewActive w; host := s |}.

Definition perform (ev : Event) (w : Workbench) : option Workbench :=
  match ev with
  | Render => Some (withView (renderBody (view w)) w)
  | SetActive b =>
      Some {| view := view w; viewActive := b; host := host w |}
  | ClickRun => Some (withHost (runPython (view w) (host w)) w)
  | ClearAction => Some (ClearMonacoInputAction_run w)
  | SaveAction => Some (SaveMonacoInputAction_run w)
  | CallSetValue v => Some (withView (setValue v (view w)) w)
  | UserEdit e =>
      Some (withView
              {| _editor := optDo (_editor (view w)) (fun _ => e);
                 _editorContainer := _editorContainer (view w);
                 _textModel := _textModel (view w) |} w)
  | Tick d now' =>
      if (0 <=? d)%Z then Some (withHost (advance d now' (host w)) w) else None
  | Fire i =>
      match takeTimer i (host w) with
      | Some (c, s) => Some (withHost (runClosure c s) w)
      | None => None
      end
  | FocusView => Some (withView (focus (view w)) w)
  | ShowView visible => Some (withView (setVisible visible (view w)) w)
  end.

(** Running a sequence of events; [None] when one of them cannot happen. *)
Fixpoint performAll (evs : list Event) (w : Workbench) : option Workbench :=
  match evs with
  | [] => Some w
  | ev :: rest =>
      match perform ev w with
      | Some w' => performAll rest w'
      | None => None
      end
  end.

(** A window as it opens: the pane not yet rendered, nothing invoked,
    nothing pending. *)
Definition startup (now : Z) : Workbench :=
  {| view := newPane;
     viewActive := false;
     host := {| dateNow := now; uptime := 0; invoked := []; timers := [];
                console := [] |} |}.

End Pane.

Arguments MonacoInputViewPane E : clear implicits.
Arguments Workbench E : clear implicits.
Arguments Event E : clear implicits.

End MonacoInput.
Import Host MonacoInput.

(* ================================================================== *)
(** ** A plain text buffer as the editor widget *)
(* ================================================================== *)

Module Buffer.

(** Modelled from the spec: the simplest widget that fits the spec's
    description of the host's editor component, "a mutable string plus
    cursor/selection state": the text, whether the widget has the focus,
    and how often it was laid out.  It stands in for [CodeEditorWidget],
    which is not part of the sources at hand, wherever a concrete editor is
    needed. *)
Record TextBuffer := {
  text : jsstring;
  hasFocus : bool;
  layouts : nat
}.

#[global] Instance TextBuffer_editor : ICodeEditor TextBuffer := {|
  createInstance := fun _ _ _ =>
    {| text := []; hasFocus := false; layouts := 0 |};
  setModel := fun m e =>
    {| text := initialValue m; hasFocus := hasFocus e; layouts := layouts e |};
  Host.getValue := text;
  Host.setValue := fun v e =>
    {| text := v; hasFocus := hasFocus e; layouts := layouts e |};
  Host.focus := fun e =>
    {| text := text e; hasFocus := true; layouts := layouts e |};
  layout := fun e =>
    {| text := text e; hasFocus := hasFocus e; layouts := S (layouts e) |};
  getValue_setModel := fun _ _ => eq_refl;
  getValue_setValue := fun _ _ => eq_refl;
  getValue_focus := fun _ => eq_refl;
  getValue_layout := fun _ => eq_refl
|}.

(** A rendered, active pane holding [code], at wall-clock time [now]. *)
Definition holding (code : jsstring) (now : Z) : Workbench TextBuffer :=
  {| view := setValue code (renderBody newPane);
     viewActive := true;
     host := {| dateNow := now; uptime := 0; invoked := []; timers := [];
                console := [] |} |}.

End Buffer.

(* ================================================================== *)
(** ** The vocabulary of the properties *)
(* ================================================================== *)

(** The terminal payload, spelled as the description of the Run handler
    spells it; [t] is the reading of [Date.now()], [text] the editor
    text. *)
Definition describedPayload (t : Z) (text : jsstring) : jsstring :=
  (lit "clear; cat > /tmp/vscode_monaco_" ++ numberToString t ++
   lit ".py << " ++ lit "'EOF'" ++ lit " 2>/dev/null" ++ nl) ++
  text ++
  (nl ++ lit "EOF" ++ nl ++
   lit "echo " ++ dq ++ snake ++ lit " Running Python..." ++ dq ++ nl ++
   lit "python3 /tmp/vscode_monaco_" ++ numberToString t ++
   lit ".py 2>&1" ++ nl ++
   lit "rm /tmp/vscode_monaco_" ++ numberToString t ++
   lit ".py 2>/dev/null") ++
  nl.

(** The default content, spelled as the description of [clearContent]
    spells it. *)
Definition placeholder : jsstring :=
  lit "# Type your Python code here" ++ nl ++
  lit "print(" ++ dq ++ lit "Hello from Python!" ++ dq ++ lit ")" ++ nl.

(** Empty or whitespace only. *)
Definition blank (s : jsstring) : bool := forallb isWhiteSpace s.

(** A shell text captures the exit code of a command when it reads the
    special parameter [$?]. *)
Definition capturesExitCode (cmd : jsstring) : bool :=
  includesb cmd (lit "$?").

(** The text the Run handler sends for editor text [code] when
    [Date.now()] reads [now]. *)
Definition terminalText (now : Z) (code : jsstring) : jsstring :=
  cleanCommand (tempFilePath now) code ++ nl.

(** The lines of the template around the editor text. *)
Definition heredocLine (now : Z) : jsstring :=
  lit "clear; cat > " ++ tempFilePath now ++ lit " << 'EOF' 2>/dev/null".
Definition delimiterLine : jsstring := lit "EOF".
Definition bannerLine : jsstring :=
  lit "echo " ++ dq ++ snake ++ lit " Running Python..." ++ dq.
Definition interpreterLine (now : Z) : jsstring :=
  lit "python3 " ++ tempFilePath now ++ lit " 2>&1".
Definition removeLine (now : Z) : jsstring :=
  lit "rm " ++ tempFilePath now ++ lit " 2>/dev/null".

Definition isCommand (id : string) (inv : Invocation) : bool :=
  String.eqb (commandId inv) id.

(** The texts forwarded to the terminal, in the order of the calls. *)
Definition sentTexts (log : list Invocation) : list jsstring :=
  flat_map
    (fun inv =>
       if isCommand "workbench.action.terminal.sendSequence" inv then
         match commandArgs inv with
         | TextArgs t => [t]
         | NoArgs => []
         end
       else [])
    log.

(** In a log of command invocations, every [sendSequence] comes after a
    [terminal.new] invoked at least [ms] milliseconds before it. *)
Definition sendsFollowNew (ms : Z) (log : list Invocation) : Prop :=
  forall before inv after,
    log = before ++ inv :: after ->
    isCommand "workbench.action.terminal.sendSequence" inv = true ->
    exists inv0,
      In inv0 before /\
      isCommand "workbench.action.terminal.new" inv0 = true /\
      (invokedAt inv0 + ms <= invokedAt inv)%Z.

(** A pending timer is backed by the log when its delay is [ms] and a
    [terminal.new] was invoked at the time it was registered. *)
Definition timerBacked (ms : Z) (log : list Invocation)
  (tm : Timer Closure) : Prop :=
  delay tm = ms /\
  exists inv0,
    In inv0 log /\
    isCommand "workbench.action.terminal.new" inv0 = true /\
    invokedAt inv0 = registeredAt tm.

(** The invariant of the host state under the events of the window. *)
Definition consistent (s : State Closure) : Prop :=
  sendsFollowNew 150 (invoked s) /\
  Forall (timerBacked 150 (invoked s)) (timers s).

(** What one event may do to the queue of pending timers: a [Fire] takes
    out the timer it names, which was due; any other event keeps every
    pending timer in place and may only add behind them. *)
Definition queueDiscipline {E : Type} (ev : Event E)
  (s s' : State Closure) : Prop :=
  match ev with
  | Fire i =>
      exists tm,
        nth_error (timers s) i = Some tm /\
        (due tm <= uptime s)%Z /\
        timers s' = removeAt i (timers s)
  | _ => exists added, timers s' = timers s ++ added
  end.


(** The two shapes of call the pane makes on the command bus. *)
Definition paneInvocation (inv : Invocation) : Prop :=
  (commandId inv = "workbench.action.terminal.new"%string /\
   commandArgs inv = NoArgs) \/
  (commandId inv = "workbench.action.terminal.sendSequence"%string /\
   exists text, commandArgs inv = TextArgs text).

(** A closure, or a text, made by [runPython] from text that is not
    blank, under the file name of some reading of the clock. *)
Definition closureFromRun (c : Closure) : Prop :=
  exists t code,
    trim code <> [] /\ c = RunPythonTimeout (tempFilePath t) code.

Definition textFromRun (text : jsstring) : Prop :=
  exists t code, trim code <> [] /\ text = terminalText t code.

(** Code units a POSIX shell takes literally inside a word: letters,
    digits and [/], [.], [_], [-]. *)
Definition shellSafe (c : N) : bool :=
  ((48 <=? c) && (c <=? 57) || (65 <=? c) && (c <=? 90) ||
   (97 <=? c) && (c <=? 122) ||
   (c =? 45) || (c =? 46) || (c =? 47) || (c =? 95))%N.

(** The shell's reading of a here-document opened on the first line of a
    text with the quoted delimiter [EOF]: the lines that follow, taken
    literally, up to the first line that is exactly the delimiter. *)
Definition isDelimiter (line : jsstring) : bool :=
  if list_eq_dec N.eq_dec line delimiterLine then true else false.

Fixpoint untilDelimiter (ls : list jsstring) : list jsstring :=
  match ls with
  | [] => []
  | l :: rest => if isDelimiter l then [] else l :: untilDelimiter rest
  end.

Definition heredocBody (text : jsstring) : list jsstring :=
  untilDelimiter (tl (splitLines text)).

(** The lines after the here-document, which the shell runs as
    commands. *)
Fixpoint afterDelimiter (ls : list jsstring) : list jsstring :=
  match ls with
  | [] => []
  | l :: rest => if isDelimiter l then rest else afterDelimiter rest
  end.

Definition commandsAfterHeredoc (text : jsstring) : list jsstring :=
  afterDelimiter (tl (splitLines text)).

(* ================================================================== *)
(** ** Sanity checks of the string layer *)
(* ================================================================== *)

Example numberToString_zero : numberToString 0 = lit "0".
Proof. reflexivity. Qed.

Example numberToString_stamp :
  numberToString 1700000000123 = lit "1700000000123".
Proof. reflexivity. Qed.

Example numberToString_neg : numberToString (-42) = lit "-42".
Proof. reflexivity. Qed.

Example trim_sample : trim (lit "   print(1) " ++ nl) = lit "print(1)".
Proof. reflexivity. Qed.

Example trim_blank_sample : trim (lit "  " ++ nl ++ [9; 160; 8232]%N) = [].
Proof. reflexivity. Qed.

Example splitLines_sample :
  splitLines (lit "a" ++ nl ++ nl ++ lit "bc") = [lit "a"; []; lit "bc"].
Proof. reflexivity. Qed.

(* ================================================================== *)
(** ** Facts about [trim] *)
(* ================================================================== *)

Section Trim.

Lemma trimStart_blank (s : jsstring) : blank s = true -> trimStart s = [].
Proof.
  induction s as [|c r IH]; simpl; [reflexivity|].
  intros Hb. apply andb_prop in Hb as [Hc Hr].
  rewrite Hc. now apply IH.
Qed.

Lemma trimStart_nil (s : jsstring) : trimStart s = [] -> blank s = true.
Proof.
  induction s as [|c r IH]; simpl; [reflexivity|].
  destruct (isWhiteSpace c); [intros Hr; now rewrite IH | discriminate].
Qed.

(** What [trimStart] leaves does not start with whitespace. *)
Lemma trimStart_head (s : jsstring) (c : N) (r : jsstring) :
  trimStart s = c :: r -> isWhiteSpace c = false.
Proof.
  induction s as [|a s' IH]; simpl; [discriminate|].
  destruct (isWhiteSpace a) eqn:Ha; [exact IH|].
  intros Heq. injection Heq as -> _. exact Ha.
Qed.

Lemma blank_rev (s : jsstring) : blank (rev s) = blank s.
Proof.
  unfold blank. induction s as [|c r IH]; simpl; [reflexivity|].
  rewrite forallb_app, IH. simpl. rewrite andb_true_r. apply andb_comm.
Qed.

Lemma trim_blank (s : jsstring) : blank s = true -> trim s = [].
Proof.
  intros Hb. unfold trim, trimEnd. now rewrite (trimStart_blank s Hb).
Qed.

Lemma trim_nil (s : jsstring) : trim s = [] -> blank s = true.
Proof.
  unfold trim, trimEnd. intros Ht.
  assert (Hr : trimStart (rev (trimStart s)) = []).
  { destruct (trimStart (rev (trimStart s))) as [|x l]; [reflexivity|].
    apply (f_equal (@List.length N)) in Ht. rewrite length_rev in Ht.
    discriminate. }
  apply trimStart_nil in Hr. rewrite blank_rev in Hr.
  apply trimStart_nil.
  destruct (trimStart s) as [|c r] eqn:Hs; [reflexivity|].
  apply trimStart_head in Hs. simpl in Hr.
  rewrite Hs in Hr. discriminate.
Qed.

(** [!code.trim()] holds exactly for blank text. *)
Lemma not_truthy_trim (s : jsstring) : negb (truthy (trim s)) = blank s.
Proof.
  destruct (blank s) eqn:Hb.
  - now rewrite (trim_blank s Hb).
  - destruct (trim s) as [|c r] eqn:Ht; [|reflexivity].
    apply trim_nil in Ht. congruence.
Qed.

End Trim.

(* ================================================================== *)
(** ** The payload of the Run handler *)
(* ================================================================== *)

Section Payload.

(** The text built from the source's template is the described one. *)
Lemma terminalText_described (now : Z) (code : jsstring) :
  terminalText now code = describedPayload now code.
Proof.
  unfold terminalText, describedPayload, cleanCommand, tempFilePath,
    tempFileName.
  repeat rewrite <- app_assoc. reflexivity.
Qed.

Lemma trim_nonempty_not_blank (code : jsstring) :
  trim code <> [] -> negb (truthy (trim code)) = false.
Proof.
  intros Hne. destruct (trim code); [congruence | reflexivity].
Qed.

Context {E : Type} `{ICodeEditor E}.

(** On text that is not blank, [runPython] invokes [terminal.new] and
    leaves one timer of 150 ms holding the path and the text. *)
Lemma runPython_nonblank (this : MonacoInputViewPane E)
  (s : State Closure) :
  trim (getValue this) <> [] ->
  runPython this s =
  setTimeout (RunPythonTimeout (tempFilePath (dateNow s)) (getValue this)) 150
    (executeCommand "workbench.action.terminal.new" NoArgs s).
Proof.
  intros Hne. unfold runPython. fold (getValue this).
  now rewrite trim_nonempty_not_blank by exact Hne.
Qed.

Lemma runPython_blank (this : MonacoInputViewPane E) (s : State Closure) :
  blank (getValue this) = true -> runPython this s = s.
Proof.
  intros Hb. unfold runPython. fold (getValue this).
  now rewrite not_truthy_trim, Hb.
Qed.

Lemma getValue_missing (this : MonacoInputViewPane E) :
  _editor this = None -> getValue this = [].
Proof. intros Hm. unfold getValue. now rewrite Hm. Qed.

Lemma getValue_present (this : MonacoInputViewPane E) (e : E) :
  _editor this = Some e -> getValue this = Host.getValue e.
Proof.
  intros He. unfold getValue. rewrite He. simpl.
  now destruct (Host.getValue e).
Qed.

End Payload.

(** C1. For every editor text whose trim is not empty, [runPython] builds
    the terminal payload by the fixed template around the text, with the
    reading of [Date.now()] at the time of the call in the three places of
    the file name, and that string, newline at the end included, is the
    [text] argument of the [workbench.action.terminal.sendSequence] call
    made by the callback it leaves with [setTimeout]. *)
Theorem runPython_sends_described_payload
  {E : Type} `{ICodeEditor E} (w : Workbench E) (code : jsstring) :
  getValue (view w) = code ->
  trim code <> [] ->
  exists c : Closure,
    runPython (view w) (host w) =
      setTimeout c 150
        (executeCommand "workbench.action.terminal.new" NoArgs (host w)) /\
    forall s : State Closure,
      runClosure c s =
        executeCommand "workbench.action.terminal.sendSequence"
          (TextArgs (describedPayload (dateNow (host w)) code)) s.
Proof.
  intros Hcode Hne. subst code.
  exists (RunPythonTimeout (tempFilePath (dateNow (host w)))
            (getValue (view w))).
  split.
  - now apply runPython_nonblank.
  - intros s. rewrite <- terminalText_described. reflexivity.
Qed.

Lemma runPython_sends_described_payload_witness :
  exists c : Closure,
    runPython (view (Buffer.holding (lit "print(1)") 1700000000123))
              (host (Buffer.holding (lit "print(1)") 1700000000123)) =
      setTimeout c 150
        (executeCommand "workbench.action.terminal.new" NoArgs
           (host (Buffer.holding (lit "print(1)") 1700000000123))) /\
    forall s : State Closure,
      runClosure c s =
        executeCommand "workbench.action.terminal.sendSequence"
          (TextArgs (describedPayload 1700000000123 (lit "print(1)"))) s.
Proof.
  apply (runPython_sends_described_payload
           (Buffer.holding (lit "print(1)") 1700000000123)
           (code := lit "print(1)")).
  - reflexivity.
  - vm_compute. discriminate.
Defined.

(* ================================================================== *)
(** ** Guards: blank text and a missing editor *)
(* ================================================================== *)

Lemma withHost_same {E : Type} (w : Workbench E) : withHost (host w) w = w.
Proof. now destruct w. Qed.

Lemma withView_same {E : Type} (w : Workbench E) : withView (view w) w = w.
Proof. now destruct w. Qed.

(** C3. When the editor text is empty or whitespace only, and when the
    editor is missing (the text is then taken as the empty string), a click
    on Run returns at the guard: the window is left exactly as it was, so
    neither [workbench.action.terminal.new] nor
    [workbench.action.terminal.sendSequence] is invoked, no timer is left
    behind and nothing else changes. *)
Theorem runPython_returns_early_on_blank
  {E : Type} `{ICodeEditor E} (w : Workbench E) :
  _editor (view w) = None \/ blank (getValue (view w)) = true ->
  runPython (view w) (host w) = host w /\
  perform ClickRun w = Some w.
Proof.
  intros Hguard.
  assert (Hb : blank (getValue (view w)) = true).
  { destruct Hguard as [Hm | Hb]; [|exact Hb].
    now rewrite (getValue_missing _ Hm). }
  assert (Hrun : runPython (view w) (host w) = host w)
    by now apply runPython_blank.
  split; [exact Hrun|].
  simpl. now rewrite Hrun, withHost_same.
Qed.

Lemma runPython_returns_early_on_blank_witness :
  runPython (view (Buffer.holding (lit "  " ++ nl ++ [9%N]) 5))
            (host (Buffer.holding (lit "  " ++ nl ++ [9%N]) 5)) =
    host (Buffer.holding (lit "  " ++ nl ++ [9%N]) 5) /\
  perform ClickRun (Buffer.holding (lit "  " ++ nl ++ [9%N]) 5) =
    Some (Buffer.holding (lit "  " ++ nl ++ [9%N]) 5).
Proof.
  apply (runPython_returns_early_on_blank
           (Buffer.holding (lit "  " ++ nl ++ [9%N]) 5)).
  right. reflexivity.
Defined.

(** C6. With [_editor] undefined every operation of the pane is guarded:
    [getValue] returns the empty string, [setValue] and [clearContent]
    leave the pane as it is, and [runPython] leaves the host as it is, so
    it sends nothing; the same holds for what [focus] and [setVisible] add
    to the base class.  Each of them returns normally: the optional calls
    [?.] evaluate to [undefined] instead of dereferencing. *)
Theorem missing_editor_is_guarded
  {E : Type} `{ICodeEditor E} (this : MonacoInputViewPane E)
  (v : jsstring) (s : State Closure) :
  _editor this = None ->
  getValue this = [] /\
  setValue v this = this /\
  clearContent this = this /\
  runPython this s = s /\
  focus this = this /\
  (forall visible, setVisible visible this = this).
Proof.
  intros Hm.
  split; [now apply getValue_missing|].
  split; [destruct this as [ed c m]; simpl in Hm; subst ed; reflexivity|].
  split; [destruct this as [ed c m]; simpl in Hm; subst ed; reflexivity|].
  split; [apply runPython_blank; now rewrite getValue_missing|].
  split; [destruct this as [ed c m]; simpl in Hm; subst ed; reflexivity|].
  intros visible.
  destruct this as [ed c m]; simpl in Hm; subst ed. now destruct visible.
Qed.

Lemma missing_editor_is_guarded_witness :
  getValue (newPane (E := Buffer.TextBuffer)) = [] /\
  setValue (lit "x = 1") newPane = newPane (E := Buffer.TextBuffer) /\
  clearContent newPane = newPane (E := Buffer.TextBuffer) /\
  runPython (newPane (E := Buffer.TextBuffer))
    (host (startup (E := Buffer.TextBuffer) 0)) =
    host (startup (E := Buffer.TextBuffer) 0) /\
  focus newPane = newPane (E := Buffer.TextBuffer) /\
  (forall visible,
     setVisible visible newPane = newPane (E := Buffer.TextBuffer)).
Proof.
  apply (missing_editor_is_guarded (newPane (E := Buffer.TextBuffer))
           (lit "x = 1") (host (startup (E := Buffer.TextBuffer) 0))).
  reflexivity.
Defined.

(* ================================================================== *)
(** ** Reading and writing the text *)
(* ================================================================== *)

(** C5. Text set equals text read back: on a pane whose editor exists,
    [setValue v] followed by [getValue] returns [v], for every string [v],
    the empty one included. *)
Theorem getValue_after_setValue
  {E : Type} `{ICodeEditor E} (this : MonacoInputViewPane E)
  (e : E) (v : jsstring) :
  _editor this = Some e ->
  getValue (setValue v this) = v.
Proof.
  intros He.
  rewrite (getValue_present (setValue v this) (e := Host.setValue v e)).
  - apply getValue_setValue.
  - simpl. now rewrite He.
Qed.

Lemma getValue_after_setValue_witness :
  getValue (setValue (lit "import os" ++ nl)
              (view (Buffer.holding (lit "print(1)") 0))) =
  lit "import os" ++ nl.
Proof.
  apply (getValue_after_setValue (view (Buffer.holding (lit "print(1)") 0))
           (e := {| Buffer.text := lit "print(1)";
                    Buffer.hasFocus := false;
                    Buffer.layouts := 0 |})).
  reflexivity.
Defined.

(** C9. [clearContent] sets the editor to the default content, the very
    string [createEditor] gives the model as its initial content: on a pane
    whose editor exists, [getValue] after [clearContent] returns that
    string, which is not the empty string, and it is what [getValue]
    returns on a pane whose editor was just created. *)
Theorem clearContent_restores_default
  {E : Type} `{ICodeEditor E} (this fresh : MonacoInputViewPane E)
  (e : E) (container : HTMLElement) :
  _editor this = Some e ->
  _editorContainer fresh = Some container ->
  getValue (clearContent this) = placeholder /\
  getValue (clearContent this) <> [] /\
  getValue (clearContent this) = getValue (createEditor fresh).
Proof.
  intros He Hc.
  assert (Hclear : getValue (clearContent this) = placeholder).
  { rewrite (getValue_present (clearContent this)
               (e := Host.focus (Host.setValue placeholder e))).
    - rewrite getValue_focus. apply getValue_setValue.
    - simpl. now rewrite He. }
  assert (Hfresh : getValue (createEditor fresh) = placeholder).
  { unfold createEditor. rewrite Hc.
    erewrite getValue_present by reflexivity.
    now rewrite getValue_setModel. }
  rewrite Hclear, Hfresh. repeat split. discriminate.
Qed.

Lemma clearContent_restores_default_witness :
  getValue (clearContent (view (Buffer.holding (lit "x = 1") 0))) =
    placeholder /\
  getValue (clearContent (view (Buffer.holding (lit "x = 1") 0))) <> [] /\
  getValue (clearContent (view (Buffer.holding (lit "x = 1") 0))) =
    getValue (createEditor (view (Buffer.holding (lit "y = 2") 0))).
Proof.
  apply (clearContent_restores_default
           (view (Buffer.holding (lit "x = 1") 0))
           (view (Buffer.holding (lit "y = 2") 0))
           (e := {| Buffer.text := lit "x = 1";
                    Buffer.hasFocus := false;
                    Buffer.layouts := 0 |})
           (container := dom_create ".monaco-input-container"));
    reflexivity.
Defined.

(* ================================================================== *)
(** ** The title-bar actions *)
(* ================================================================== *)

Lemma getActiveViewWithId_active {E : Type} (w : Workbench E) :
  viewActive w = true -> getActiveViewWithId ID w = Some (view w).
Proof. intros Ha. unfold getActiveViewWithId. now rewrite Ha. Qed.

Lemma getActiveViewWithId_inactive {E : Type} (w : Workbench E) :
  viewActive w = false -> getActiveViewWithId ID w = None.
Proof. intros Ha. unfold getActiveViewWithId. now rewrite Ha. Qed.

(** C4, as stated, fails: after [monacoInput.clear] on an active view
    holding [x = 1], [getValue] does not return the empty string. *)
Lemma clear_action_leaves_text_counterexample :
  getValue
    (view (ClearMonacoInputAction_run (Buffer.holding (lit "x = 1") 0)))
  <> [].
Proof. vm_compute. discriminate. Qed.

(** C4, amended. The action [monacoInput.clear], run while the Monaco
    Input view is the active view and its editor exists, resets the
    editor's text to the default content: afterwards [getValue] returns
    that string. *)
Theorem clear_action_resets_to_default
  {E : Type} `{ICodeEditor E} (w : Workbench E) (e : E) :
  viewActive w = true ->
  _editor (view w) = Some e ->
  getValue (view (ClearMonacoInputAction_run w)) = placeholder.
Proof.
  intros Ha He. unfold ClearMonacoInputAction_run.
  rewrite (getActiveViewWithId_active w Ha). simpl.
  rewrite (getValue_present (clearContent (view w))
             (e := Host.focus (Host.setValue placeholder e))).
  - rewrite getValue_focus. apply getValue_setValue.
  - simpl. now rewrite He.
Qed.

Lemma clear_action_resets_to_default_witness :
  getValue
    (view (ClearMonacoInputAction_run (Buffer.holding (lit "x = 1") 0))) =
  placeholder.
Proof.
  apply (clear_action_resets_to_default (Buffer.holding (lit "x = 1") 0)
           (e := {| Buffer.text := lit "x = 1";
                    Buffer.hasFocus := false;
                    Buffer.layouts := 0 |}));
    reflexivity.
Defined.

(** C8. The action [monacoInput.save] only reads: it leaves the pane, and
    with it the editor's text, as it was, keeps the active flag, the
    clocks, the invoked commands and the pending timers, and, when the view
    is the active one, logs what [getValue] returned to the console. *)
Theorem save_action_only_reads
  {E : Type} `{ICodeEditor E} (w : Workbench E) :
  view (SaveMonacoInputAction_run w) = view w /\
  getValue (view (SaveMonacoInputAction_run w)) = getValue (view w) /\
  viewActive (SaveMonacoInputAction_run w) = viewActive w /\
  dateNow (host (SaveMonacoInputAction_run w)) = dateNow (host w) /\
  uptime (host (SaveMonacoInputAction_run w)) = uptime (host w) /\
  invoked (host (SaveMonacoInputAction_run w)) = invoked (host w) /\
  timers (host (SaveMonacoInputAction_run w)) = timers (host w) /\
  console (host (SaveMonacoInputAction_run w)) =
    if viewActive w
    then console (host w) ++ [[lit "Saving content:"; getValue (view w)]]
    else console (host w).
Proof.
  unfold SaveMonacoInputAction_run.
  destruct (viewActive w) eqn:Ha.
  - rewrite (getActiveViewWithId_active w Ha). simpl. repeat split.
  - rewrite (getActiveViewWithId_inactive w Ha). repeat split. exact Ha.
Qed.

(* ================================================================== *)
(** ** Searching in strings *)
(* ================================================================== *)

Section Search.

Lemma startsWith_spec (s p : jsstring) :
  startsWith s p = true <-> exists after, s = p ++ after.
Proof.
  revert s. induction p as [|a p IH]; intros s; simpl.
  - split; [intros _; now exists s | reflexivity].
  - destruct s as [|b s].
    + split; [discriminate | intros [after Ha]; discriminate].
    + rewrite andb_true_iff, N.eqb_eq, IH. split.
      * intros [-> [after ->]]. now exists after.
      * intros [after Ha]. injection Ha as -> ->. split; [reflexivity|].
        now exists after.
Qed.

Lemma includesb_spec (s p : jsstring) :
  includesb s p = true <-> includes s p.
Proof.
  induction s as [|c s IH].
  - simpl. rewrite orb_false_r, startsWith_spec. split.
    + intros [after Ha]. now exists [], after.
    + intros [before [after Ha]].
      destruct before; [now exists after|discriminate].
  - cbn [includesb]. rewrite orb_true_iff, startsWith_spec, IH. split.
    + intros [[after Ha] | [before [after Ha]]].
      * now exists [], after.
      * exists (c :: before), after. simpl. now rewrite Ha.
    + intros [before [after Ha]]. destruct before as [|b before].
      * left. now exists after.
      * right. simpl in Ha. injection Ha as _ ->. now exists before, after.
Qed.

(** A two-unit pattern [x y] inside [a ++ c ++ b] lies inside [c] when [x]
    occurs neither in [a] nor in [b] and [b] does not start with [y]. *)
Lemma includes_pair_middle (x y : N) (a c b : jsstring) :
  ~ In x a -> ~ In x b -> hd_error b <> Some y ->
  includes (a ++ c ++ b) [x; y] -> includes c [x; y].
Proof.
  intros Ha Hb Hhd [before [after Heq]]. revert before Heq.
  induction a as [|a0 a IHa]; intros before Heq.
  - simpl in Heq. clear Ha. revert before Heq.
    induction c as [|c0 c IHc]; intros before Heq.
    + exfalso. apply Hb. simpl in Heq. rewrite Heq.
      apply in_or_app. right. now left.
    + destruct before as [|b0 before].
      * simpl in Heq. injection Heq as -> Hrest.
        destruct c as [|c1 c].
        -- exfalso. apply Hhd. simpl in Hrest. now rewrite Hrest.
        -- simpl in Hrest. injection Hrest as -> _. now exists [], c.
      * simpl in Heq. injection Heq as _ Hrest.
        destruct (IHc before Hrest) as [pre [post Hc]].
        exists (c0 :: pre), post. simpl. now rewrite Hc.
  - destruct before as [|b0 before].
    + exfalso. apply Ha. simpl in Heq. injection Heq as -> _. now left.
    + simpl in Heq. injection Heq as _ Hrest.
      apply (IHa (fun Hin => Ha (or_intror Hin)) before Hrest).
Qed.

Lemma includes_middle (a c b p : jsstring) :
  includes c p -> includes (a ++ c ++ b) p.
Proof.
  intros [before [after ->]]. exists (a ++ before), (after ++ b).
  now repeat rewrite <- app_assoc.
Qed.

Lemma splitLines_nonempty (a : jsstring) : splitLines a <> [].
Proof.
  destruct a as [|c a]; simpl; [discriminate|].
  destruct (N.eqb c 10); [discriminate|].
  destruct (splitLines a); discriminate.
Qed.

(** The lines of [a] followed by a newline and [b] are the lines of [a],
    then those of [b]. *)
Lemma splitLines_app_nl (a b : jsstring) :
  splitLines (a ++ nl ++ b) = splitLines a ++ splitLines b.
Proof.
  induction a as [|c a IH]; [reflexivity|].
  simpl. destruct (N.eqb c 10).
  - simpl in IH. now rewrite IH.
  - simpl in IH. rewrite IH.
    pose proof (splitLines_nonempty a) as Hne.
    destruct (splitLines a); [congruence | reflexivity].
Qed.

Lemma splitLines_one_line (a : jsstring) :
  ~ In 10%N a -> splitLines a = [a].
Proof.
  induction a as [|c a IH]; intros Hn; [reflexivity|].
  simpl. destruct (N.eqb_spec c 10) as [->|_].
  - exfalso. apply Hn. now left.
  - rewrite IH; [reflexivity|]. intros Hin. apply Hn. now right.
Qed.

(** The code units of a printed number are the minus sign and digits. *)
Lemma digits_range (d : Decimal.uint) (c : N) :
  In c (digits d) -> (48 <= c <= 57)%N.
Proof.
  induction d; simpl; intros Hin;
    try (destruct Hin as [<- | Hin]; [lia | now apply IHd]).
  contradiction.
Qed.

Lemma numberToString_range (z : Z) (c : N) :
  In c (numberToString z) -> c = 45%N \/ (48 <= c <= 57)%N.
Proof.
  unfold numberToString. destruct (Z.to_int z) as [d|d]; simpl.
  - intros Hin. right. now apply digits_range with d.
  - intros [<- | Hin]; [now left|]. right. now apply digits_range with d.
Qed.

End Search.

(* ================================================================== *)
(** ** The shape of the generated command *)
(* ================================================================== *)

(** Decide that a code unit is absent from a string made of literals and
    printed numbers. *)
Ltac absent_unit :=
  let Hin := fresh "Hin" in
  intros Hin;
  repeat (apply in_app_or in Hin; destruct Hin as [Hin | Hin]);
  try (apply numberToString_range in Hin; lia);
  simpl in Hin;
  repeat (destruct Hin as [Hin | Hin]; try discriminate Hin);
  try contradiction.

Section Shape.

Variable now : Z.

Lemma tempFilePath_no_dollar : ~ In 36%N (tempFilePath now).
Proof. unfold tempFilePath, tempFileName. absent_unit. Qed.

Lemma tempFilePath_no_newline : ~ In 10%N (tempFilePath now).
Proof. unfold tempFilePath, tempFileName. absent_unit. Qed.

Lemma heredocLine_no_dollar : ~ In 36%N (heredocLine now).
Proof.
  unfold heredocLine. intros Hin.
  apply in_app_or in Hin. destruct Hin as [Hin | Hin]; [revert Hin; absent_unit|].
  apply in_app_or in Hin. destruct Hin as [Hin | Hin]; [|revert Hin; absent_unit].
  now apply tempFilePath_no_dollar.
Qed.

Lemma heredocLine_no_newline : ~ In 10%N (heredocLine now).
Proof.
  unfold heredocLine. intros Hin.
  apply in_app_or in Hin. destruct Hin as [Hin | Hin]; [revert Hin; absent_unit|].
  apply in_app_or in Hin. destruct Hin as [Hin | Hin]; [|revert Hin; absent_unit].
  now apply tempFilePath_no_newline.
Qed.

Lemma interpreterLine_no_dollar : ~ In 36%N (interpreterLine now).
Proof.
  unfold interpreterLine. intros Hin.
  apply in_app_or in Hin. destruct Hin as [Hin | Hin]; [revert Hin; absent_unit|].
  apply in_app_or in Hin. destruct Hin as [Hin | Hin]; [|revert Hin; absent_unit].
  now apply tempFilePath_no_dollar.
Qed.

Lemma interpreterLine_no_newline : ~ In 10%N (interpreterLine now).
Proof.
  unfold interpreterLine. intros Hin.
  apply in_app_or in Hin. destruct Hin as [Hin | Hin]; [revert Hin; absent_unit|].
  apply in_app_or in Hin. destruct Hin as [Hin | Hin]; [|revert Hin; absent_unit].
  now apply tempFilePath_no_newline.
Qed.

Lemma removeLine_no_dollar : ~ In 36%N (removeLine now).
Proof.
  unfold removeLine. intros Hin.
  apply in_app_or in Hin. destruct Hin as [Hin | Hin]; [revert Hin; absent_unit|].
  apply in_app_or in Hin. destruct Hin as [Hin | Hin]; [|revert Hin; absent_unit].
  now apply tempFilePath_no_dollar.
Qed.

Lemma removeLine_no_newline : ~ In 10%N (removeLine now).
Proof.
  unfold removeLine. intros Hin.
  apply in_app_or in Hin. destruct Hin as [Hin | Hin]; [revert Hin; absent_unit|].
  apply in_app_or in Hin. destruct Hin as [Hin | Hin]; [|revert Hin; absent_unit].
  now apply tempFilePath_no_newline.
Qed.

(** The text sent is the heredoc line, the editor text and the tail of
    the template, each closed by a newline. *)
Lemma terminalText_parts (code : jsstring) :
  terminalText now code =
  heredocLine now ++ nl ++ code ++ nl ++
  delimiterLine ++ nl ++ bannerLine ++ nl ++
  interpreterLine now ++ nl ++ removeLine now ++ nl ++ [].
Proof.
  unfold terminalText, cleanCommand, heredocLine, delimiterLine, bannerLine,
    interpreterLine, removeLine.
  repeat rewrite <- app_assoc. rewrite app_nil_r. reflexivity.
Qed.

Lemma terminalText_lines (code : jsstring) :
  splitLines (terminalText now code) =
  heredocLine now :: splitLines code ++
  [delimiterLine; bannerLine; interpreterLine now; removeLine now; []].
Proof.
  rewrite terminalText_parts.
  repeat rewrite splitLines_app_nl.
  rewrite (splitLines_one_line _ heredocLine_no_newline).
  rewrite (splitLines_one_line _ interpreterLine_no_newline).
  rewrite (splitLines_one_line _ removeLine_no_newline).
  reflexivity.
Qed.

End Shape.

Lemma no_dollar_no_capture (s : jsstring) :
  ~ In 36%N s -> capturesExitCode s = false.
Proof.
  intros Hn. unfold capturesExitCode.
  destruct (includesb s (lit "$?")) eqn:Hi; [|reflexivity].
  exfalso. apply Hn. apply includesb_spec in Hi.
  destruct Hi as [before [after ->]].
  apply in_or_app. right. now left.
Qed.

(** The template neither adds nor hides a read of [$?]: the text sent has
    one exactly when the editor text has one. *)
Lemma capturesExitCode_terminalText (now : Z) (code : jsstring) :
  capturesExitCode (terminalText now code) = capturesExitCode code.
Proof.
  unfold capturesExitCode.
  apply eq_true_iff_eq. rewrite !includesb_spec.
  rewrite terminalText_parts.
  change (heredocLine now ++ nl ++ code ++ nl ++ delimiterLine ++ nl ++
          bannerLine ++ nl ++ interpreterLine now ++ nl ++
          removeLine now ++ nl ++ [])
    with (heredocLine now ++ nl ++ code ++
          (10%N :: delimiterLine ++ nl ++ bannerLine ++ nl ++
           interpreterLine now ++ nl ++ removeLine now ++ nl ++ [])).
  rewrite (app_assoc (heredocLine now) nl).
  split.
  - apply includes_pair_middle.
    + intros Hin. apply in_app_or in Hin. destruct Hin as [Hin | Hin].
      * now apply heredocLine_no_dollar in Hin.
      * revert Hin. absent_unit.
    + intros Hin. destruct Hin as [Hin | Hin]; [discriminate|].
      apply in_app_or in Hin. destruct Hin as [Hin | Hin];
        [revert Hin; absent_unit|].
      apply in_app_or in Hin. destruct Hin as [Hin | Hin];
        [revert Hin; absent_unit|].
      apply in_app_or in Hin. destruct Hin as [Hin | Hin];
        [revert Hin; absent_unit|].
      apply in_app_or in Hin. destruct Hin as [Hin | Hin];
        [revert Hin; absent_unit|].
      apply in_app_or in Hin. destruct Hin as [Hin | Hin];
        [now apply interpreterLine_no_dollar in Hin|].
      apply in_app_or in Hin. destruct Hin as [Hin | Hin];
        [revert Hin; absent_unit|].
      apply in_app_or in Hin. destruct Hin as [Hin | Hin];
        [now apply removeLine_no_dollar in Hin|].
      revert Hin. absent_unit.
    + simpl. discriminate.
  - apply includes_middle.
Qed.

(** C2, as stated, fails: a click on Run with [print(1)] in the editor,
    followed by the timer, sends one text; its steps are the heredoc, the
    banner, the interpreter and the removal, and none of them reads the
    exit code. *)
Lemma generated_command_captures_exit_code_counterexample :
  exists w' text,
    performAll [ClickRun; Tick 150 1700000000300; Fire 0]
      (Buffer.holding (lit "print(1)") 1700000000123) = Some w' /\
    sentTexts (invoked (host w')) = [text] /\
    splitLines text =
      [lit "clear; cat > /tmp/vscode_monaco_1700000000123.py << 'EOF' 2>/dev/null";
       lit "print(1)";
       lit "EOF";
       lit "echo " ++ dq ++ snake ++ lit " Running Python..." ++ dq;
       lit "python3 /tmp/vscode_monaco_1700000000123.py 2>&1";
       lit "rm /tmp/vscode_monaco_1700000000123.py 2>/dev/null";
       []] /\
    capturesExitCode text = false.
Proof.
  eexists. eexists. split; [vm_compute; reflexivity|].
  split; [vm_compute; reflexivity|].
  split; vm_compute; reflexivity.
Qed.

(** C2, amended. The text the Run handler sends is a fixed template
    around the editor text whose lines are, in order: the line that clears
    the screen and opens the heredoc into the temp file, the lines of the
    editor text, the delimiter, a banner, the interpreter run on the temp
    file, and the removal of the temp file.  No line of the template reads
    the exit code; the text sent reads it exactly when the editor text
    itself does. *)
Theorem generated_command_steps (now : Z) (code : jsstring)
  (s : State Closure) :
  runClosure (RunPythonTimeout (tempFilePath now) code) s =
    executeCommand "workbench.action.terminal.sendSequence"
      (TextArgs (terminalText now code)) s /\
  splitLines (terminalText now code) =
    heredocLine now :: splitLines code ++
    [delimiterLine; bannerLine; interpreterLine now; removeLine now; []] /\
  capturesExitCode (heredocLine now) = false /\
  capturesExitCode delimiterLine = false /\
  capturesExitCode bannerLine = false /\
  capturesExitCode (interpreterLine now) = false /\
  capturesExitCode (removeLine now) = false /\
  capturesExitCode (terminalText now code) = capturesExitCode code.
Proof.
  split; [reflexivity|].
  split; [apply terminalText_lines|].
  split; [apply no_dollar_no_capture, heredocLine_no_dollar|].
  split; [reflexivity|].
  split; [reflexivity|].
  split; [apply no_dollar_no_capture, interpreterLine_no_dollar|].
  split; [apply no_dollar_no_capture, removeLine_no_dollar|].
  apply capturesExitCode_terminalText.
Qed.

(* ================================================================== *)
(** ** From the click to the terminal *)
(* ================================================================== *)

Lemma removeAt_last {A : Type} (l : list A) (x : A) :
  removeAt (List.length l) (l ++ [x]) = l.
Proof. induction l as [|a l IH]; simpl; [reflexivity | now rewrite IH]. Qed.

Lemma nth_error_last {A : Type} (l : list A) (x : A) :
  nth_error (l ++ [x]) (List.length l) = Some x.
Proof. induction l as [|a l IH]; simpl; [reflexivity | exact IH]. Qed.

(** A click on text that is not blank, a wait of at least 150 ms and the
    run of the timer the click left: the window is as before but for the
    clocks and two more invocations, [terminal.new] at the time of the
    click and [sendSequence] at the time of the timer. *)
Lemma click_wait_fire {E : Type} `{ICodeEditor E} (w : Workbench E)
  (d now' : Z) :
  trim (getValue (view w)) <> [] ->
  (150 <= d)%Z ->
  performAll [ClickRun; Tick d now'; Fire (List.length (timers (host w)))] w =
  Some
    {| view := view w;
       viewActive := viewActive w;
       host :=
         {| dateNow := now';
            uptime := uptime (host w) + d;
            invoked := invoked (host w) ++
              [{| invokedAt := uptime (host w);
                  commandId := "workbench.action.terminal.new";
                  commandArgs := NoArgs |};
               {| invokedAt := uptime (host w) + d;
                  commandId := "workbench.action.terminal.sendSequence";
                  commandArgs :=
                    TextArgs (terminalText (dateNow (host w))
                                (getValue (view w))) |}];
            timers := timers (host w);
            console := console (host w) |} |}.
Proof.
  intros Hne Hd.
  cbn [performAll perform].
  rewrite (runPython_nonblank _ _ Hne).
  assert (Hpos : (0 <=? d)%Z = true) by (apply Z.leb_le; lia).
  rewrite Hpos.
  unfold takeTimer, withHost, advance, setTimeout, executeCommand.
  cbn [host view viewActive timers uptime dateNow invoked console].
  rewrite nth_error_last.
  unfold due. cbn [registeredAt delay callback].
  assert (Hdue : (uptime (host w) + 150 <=? uptime (host w) + d)%Z = true)
    by (apply Z.leb_le; lia).
  rewrite Hdue, removeAt_last.
  unfold runClosure, executeCommand, terminalText.
  cbn [host view viewActive timers uptime dateNow invoked console].
  rewrite <- app_assoc. reflexivity.
Qed.

(** C10. The editor text goes into the command verbatim: for every text
    that is not blank, the string forwarded to
    [workbench.action.terminal.sendSequence] after a click on Run holds
    that text as one contiguous run, and its lines are the heredoc line,
    the lines of the text unchanged, then the rest of the template.  A
    line of the text equal to the delimiter [EOF] is no exception: it
    comes out as a line of the heredoc body, before the template's own
    delimiter. *)
Theorem runPython_embeds_text_verbatim
  {E : Type} `{ICodeEditor E} (w : Workbench E) (code : jsstring)
  (d now' : Z) :
  getValue (view w) = code ->
  trim code <> [] ->
  (150 <= d)%Z ->
  exists w' text,
    performAll [ClickRun; Tick d now'; Fire (List.length (timers (host w)))] w
      = Some w' /\
    sentTexts (invoked (host w')) = sentTexts (invoked (host w)) ++ [text] /\
    includes text code /\
    splitLines text =
      heredocLine (dateNow (host w)) :: splitLines code ++
      [delimiterLine; bannerLine; interpreterLine (dateNow (host w));
       removeLine (dateNow (host w)); []] /\
    (In delimiterLine (splitLines code) ->
     exists body rest,
       splitLines text = heredocLine (dateNow (host w)) :: body ++
                         delimiterLine :: rest /\
       List.length body < List.length (splitLines code)).
Proof.
  intros Hcode Hne Hd. subst code.
  eexists. exists (terminalText (dateNow (host w)) (getValue (view w))).
  split; [now apply click_wait_fire|].
  cbn [host invoked].
  split.
  { unfold sentTexts. rewrite flat_map_app. reflexivity. }
  split.
  { rewrite terminalText_parts.
    exists (heredocLine (dateNow (host w)) ++ nl).
    eexists. rewrite <- app_assoc. reflexivity. }
  split; [apply terminalText_lines|].
  intros Hin. apply in_split in Hin. destruct Hin as [body [rest Hsplit]].
  exists body, (rest ++
    [delimiterLine; bannerLine; interpreterLine (dateNow (host w));
     removeLine (dateNow (host w)); []]).
  split.
  - rewrite terminalText_lines, Hsplit, <- app_assoc. reflexivity.
  - rewrite Hsplit, length_app. simpl. lia.
Qed.

Lemma runPython_embeds_text_verbatim_witness :
  exists w' text,
    performAll [ClickRun; Tick 200 1700000000400; Fire 0]
      (Buffer.holding (lit "print(1)" ++ nl ++ lit "EOF" ++ nl ++
                       lit "echo pwned") 1700000000123)
      = Some w' /\
    sentTexts (invoked (host w')) = [] ++ [text] /\
    includes text (lit "print(1)" ++ nl ++ lit "EOF" ++ nl ++
                   lit "echo pwned") /\
    splitLines text =
      heredocLine 1700000000123 ::
      [lit "print(1)"; lit "EOF"; lit "echo pwned"] ++
      [delimiterLine; bannerLine; interpreterLine 1700000000123;
       removeLine 1700000000123; []] /\
    (In delimiterLine [lit "print(1)"; lit "EOF"; lit "echo pwned"] ->
     exists body rest,
       splitLines text = heredocLine 1700000000123 :: body ++
                         delimiterLine :: rest /\
       List.length body < 3).
Proof.
  apply (runPython_embeds_text_verbatim
           (Buffer.holding (lit "print(1)" ++ nl ++ lit "EOF" ++ nl ++
                            lit "echo pwned") 1700000000123)
           (code := lit "print(1)" ++ nl ++ lit "EOF" ++ nl ++
                    lit "echo pwned")
           (d := 200) 1700000000400).
  - reflexivity.
  - vm_compute. discriminate.
  - lia.
Defined.

(* ================================================================== *)
(** ** The history of a window *)
(* ================================================================== *)

Section History.

Lemma sendsFollowNew_nil (ms : Z) : sendsFollowNew ms [].
Proof.
  intros before inv after Heq. destruct before; discriminate.
Qed.

(** Where an entry of [log ++ [x]] sits: inside [log], or at the end. *)
Lemma snoc_split {A : Type} (log before after : list A) (x y : A) :
  log ++ [x] = before ++ y :: after ->
  (exists after', after = after' ++ [x] /\ log = before ++ y :: after') \/
  (after = [] /\ y = x /\ before = log).
Proof.
  intros Heq.
  destruct (exists_last (l := y :: after)) as [front [z Hlast]];
    [discriminate|].
  rewrite Hlast, app_assoc in Heq.
  apply app_inj_tail in Heq. destruct Heq as [Hlog Hx]. subst z.
  destruct front as [|f front].
  - right. simpl in Hlast. injection Hlast as -> ->.
    rewrite app_nil_r in Hlog. now subst.
  - left. simpl in Hlast. injection Hlast as -> ->.
    exists front. now split.
Qed.

Lemma sendsFollowNew_snoc_other (ms : Z) (log : list Invocation)
  (x : Invocation) :
  sendsFollowNew ms log ->
  isCommand "workbench.action.terminal.sendSequence" x = false ->
  sendsFollowNew ms (log ++ [x]).
Proof.
  intros Hlog Hx before inv after Heq Hsend.
  apply snoc_split in Heq.
  destruct Heq as [[after' [_ Hin]] | [_ [-> _]]].
  - now apply (Hlog before inv after').
  - congruence.
Qed.

Lemma sendsFollowNew_snoc_send (ms : Z) (log : list Invocation)
  (x inv0 : Invocation) :
  sendsFollowNew ms log ->
  In inv0 log ->
  isCommand "workbench.action.terminal.new" inv0 = true ->
  (invokedAt inv0 + ms <= invokedAt x)%Z ->
  sendsFollowNew ms (log ++ [x]).
Proof.
  intros Hlog Hin0 Hnew Hle before inv after Heq Hsend.
  apply snoc_split in Heq.
  destruct Heq as [[after' [_ Hin]] | [_ [-> ->]]].
  - now apply (Hlog before inv after').
  - now exists inv0.
Qed.

Lemma timerBacked_grow (ms : Z) (log more : list Invocation)
  (tm : Timer Closure) :
  timerBacked ms log tm -> timerBacked ms (log ++ more) tm.
Proof.
  intros [Hd [inv0 [Hin [Hnew Hat]]]]. split; [exact Hd|].
  exists inv0. split; [|now split]. apply in_or_app. now left.
Qed.

Lemma removeAt_incl {A : Type} (i : nat) (l : list A) (x : A) :
  In x (removeAt i l) -> In x l.
Proof.
  revert i. induction l as [|a l IH]; intros i; destruct i; simpl; auto.
  intros [Hx | Hx]; [now left | right; now apply (IH i)].
Qed.

Lemma startup_consistent {E : Type} (now : Z) :
  consistent (host (startup (E := E) now)).
Proof.
  split; [apply sendsFollowNew_nil | constructor].
Qed.

Context {E : Type} `{ICodeEditor E}.

Lemma runPython_consistent (this : MonacoInputViewPane E)
  (s : State Closure) :
  consistent s -> consistent (runPython this s).
Proof.
  intros [Hlog Htimers].
  destruct (blank (getValue this)) eqn:Hb.
  - now rewrite runPython_blank.
  - rewrite runPython_nonblank.
    + split; cbn [setTimeout executeCommand invoked timers uptime].
      * now apply sendsFollowNew_snoc_other.
      * apply Forall_app. split.
        -- eapply Forall_impl; [|exact Htimers].
           intros tm. apply timerBacked_grow.
        -- constructor; [|constructor]. split; [reflexivity|].
           eexists. split; [apply in_or_app; right; now left|].
           now split.
    + intros Hnil. apply trim_nil in Hnil. congruence.
Qed.

Lemma fire_consistent (i : nat) (s s' : State Closure) (c : Closure) :
  consistent s ->
  takeTimer i s = Some (c, s') ->
  consistent (runClosure c s').
Proof.
  intros [Hlog Htimers] Htake. unfold takeTimer in Htake.
  destruct (nth_error (timers s) i) as [tm|] eqn:Hnth; [|discriminate].
  destruct (due tm <=? uptime s)%Z eqn:Hdue; [|discriminate].
  injection Htake as <- <-.
  apply Z.leb_le in Hdue.
  assert (Hback : timerBacked 150 (invoked s) tm).
  { rewrite Forall_forall in Htimers. apply Htimers.
    now apply nth_error_In with i. }
  destruct (callback tm) as [path code].
  split; cbn [runClosure executeCommand invoked timers uptime].
  - destruct Hback as [Hd [inv0 [Hin [Hnew Hat]]]].
    apply sendsFollowNew_snoc_send with inv0; try assumption.
    cbn [invokedAt]. unfold due in Hdue. lia.
  - rewrite Forall_forall in *. intros tm' Hin'.
    apply timerBacked_grow, Htimers. now apply removeAt_incl with i.
Qed.

Lemma perform_consistent (ev : Event E) (w w' : Workbench E) :
  consistent (host w) ->
  perform ev w = Some w' ->
  consistent (host w').
Proof.
  intros Hc Hp. destruct ev; simpl in Hp.
  - injection Hp as <-. exact Hc.
  - injection Hp as <-. exact Hc.
  - injection Hp as <-. cbn [withHost host]. now apply runPython_consistent.
  - injection Hp as <-. unfold ClearMonacoInputAction_run.
    destruct (getActiveViewWithId ID w); exact Hc.
  - injection Hp as <-. unfold SaveMonacoInputAction_run.
    destruct (getActiveViewWithId ID w); exact Hc.
  - injection Hp as <-. exact Hc.
  - injection Hp as <-. exact Hc.
  - destruct (0 <=? d)%Z; [|discriminate]. injection Hp as <-. exact Hc.
  - destruct (takeTimer i (host w)) as [[c s]|] eqn:Htake; [|discriminate].
    injection Hp as <-. cbn [withHost host].
    now apply fire_consistent with i (host w).
  - injection Hp as <-. exact Hc.
  - injection Hp as <-. exact Hc.
Qed.

Lemma performAll_consistent (evs : list (Event E)) (w w' : Workbench E) :
  consistent (host w) ->
  performAll evs w = Some w' ->
  consistent (host w').
Proof.
  revert w. induction evs as [|ev evs IH]; intros w Hc Hp; simpl in Hp.
  - injection Hp as <-. exact Hc.
  - destruct (perform ev w) as [w1|] eqn:Hstep; [|discriminate].
    apply (IH w1); [|exact Hp]. now apply perform_consistent with ev w.
Qed.

(** No event cancels a pending timer. *)
Lemma perform_queueDiscipline (ev : Event E) (w w' : Workbench E) :
  perform ev w = Some w' ->
  queueDiscipline ev (host w) (host w').
Proof.
  intros Hp. destruct ev; simpl in Hp; cbn [queueDiscipline].
  - injection Hp as <-. exists []. now rewrite app_nil_r.
  - injection Hp as <-. exists []. now rewrite app_nil_r.
  - injection Hp as <-. cbn [withHost host].
    destruct (blank (getValue (view w))) eqn:Hb.
    + rewrite runPython_blank by exact Hb. exists []. now rewrite app_nil_r.
    + rewrite runPython_nonblank.
      * eexists. reflexivity.
      * intros Hnil. apply trim_nil in Hnil. congruence.
  - injection Hp as <-. unfold ClearMonacoInputAction_run.
    destruct (getActiveViewWithId ID w); exists []; now rewrite app_nil_r.
  - injection Hp as <-. unfold SaveMonacoInputAction_run.
    destruct (getActiveViewWithId ID w); exists []; now rewrite app_nil_r.
  - injection Hp as <-. exists []. now rewrite app_nil_r.
  - injection Hp as <-. exists []. now rewrite app_nil_r.
  - destruct (0 <=? d)%Z; [|discriminate]. injection Hp as <-.
    exists []. now rewrite app_nil_r.
  - destruct (takeTimer i (host w)) as [[c s]|] eqn:Htake; [|discriminate].
    injection Hp as <-. unfold takeTimer in Htake.
    destruct (nth_error (timers (host w)) i) as [tm|] eqn:Hnth;
      [|discriminate].
    destruct (due tm <=? uptime (host w))%Z eqn:Hdue; [|discriminate].
    injection Htake as <- <-. apply Z.leb_le in Hdue.
    exists tm. repeat split; try assumption.
    now destruct (callback tm).
  - injection Hp as <-. exists []. now rewrite app_nil_r.
  - injection Hp as <-. exists []. now rewrite app_nil_r.
Qed.

End History.

(** C7. Running code has one asynchronous step, a fixed delay.  In every
    window reached from startup by any sequence of events:
    - every [workbench.action.terminal.sendSequence] in the history comes
      after a [workbench.action.terminal.new] invoked at least 150 ms
      before it, so no send precedes the creation of its terminal;
    - every pending timer has a delay of 150 ms;
    - a click on Run with text that is not blank invokes [terminal.new] at
      once and leaves the send to one timer of 150 ms;
    - the callback of the timer does nothing but send, whatever the state
      it runs in: there is no handling of a timeout;
    - no event cancels a pending timer: a timer leaves the queue only when
      the event loop runs it, once it is due. *)
Theorem run_has_one_fixed_delay
  {E : Type} `{ICodeEditor E} (now : Z) (evs : list (Event E))
  (w : Workbench E) :
  performAll evs (startup now) = Some w ->
  sendsFollowNew 150 (invoked (host w)) /\
  Forall (fun tm => delay tm = 150%Z) (timers (host w)) /\
  (trim (getValue (view w)) <> [] ->
   runPython (view w) (host w) =
     setTimeout
       (RunPythonTimeout (tempFilePath (dateNow (host w))) (getValue (view w)))
       150
       (executeCommand "workbench.action.terminal.new" NoArgs (host w))) /\
  (forall (c : Closure) (s : State Closure),
     exists text,
       runClosure c s =
         executeCommand "workbench.action.terminal.sendSequence"
           (TextArgs text) s) /\
  (forall (ev : Event E) (w' : Workbench E),
     perform ev w = Some w' -> queueDiscipline ev (host w) (host w')).
Proof.
  intros Hreach.
  assert (Hc : consistent (host w)).
  { apply performAll_consistent with evs (startup now); [|exact Hreach].
    apply startup_consistent. }
  destruct Hc as [Hlog Htimers].
  split; [exact Hlog|].
  split.
  { eapply Forall_impl; [|exact Htimers]. intros tm [Hd _]. exact Hd. }
  split; [apply runPython_nonblank|].
  split.
  { intros [path code] s. eexists. reflexivity. }
  intros ev w'. apply perform_queueDiscipline.
Qed.

Lemma run_has_one_fixed_delay_witness :
  exists w : Workbench Buffer.TextBuffer,
    performAll
      [Render; SetActive true; ClickRun; Tick 150 1700000000300; Fire 0]
      (startup 1700000000123) = Some w /\
    sendsFollowNew 150 (invoked (host w)) /\
    Forall (fun tm => delay tm = 150%Z) (timers (host w)) /\
    (trim (getValue (view w)) <> [] ->
     runPython (view w) (host w) =
       setTimeout
         (RunPythonTimeout (tempFilePath (dateNow (host w)))
            (getValue (view w)))
         150
         (executeCommand "workbench.action.terminal.new" NoArgs (host w))) /\
    (forall (c : Closure) (s : State Closure),
       exists text,
         runClosure c s =
           executeCommand "workbench.action.terminal.sendSequence"
             (TextArgs text) s) /\
    (forall (ev : Event Buffer.TextBuffer) (w' : Workbench Buffer.TextBuffer),
       perform ev w = Some w' -> queueDiscipline ev (host w) (host w')).
Proof.
  eexists. split; [vm_compute; reflexivity|].
  apply (run_has_one_fixed_delay 1700000000123
           [Render; SetActive true; ClickRun; Tick 150 1700000000300; Fire 0]).
  vm_compute. reflexivity.
Defined.

Example history_sample :
  option_map (fun w : Workbench Buffer.TextBuffer =>
                map (fun inv => (invokedAt inv, commandId inv))
                  (invoked (host w)))
    (performAll
       [Render; SetActive true; ClickRun; Tick 150 1700000000300; Fire 0]
       (startup 1700000000123)) =
  Some [(0%Z, "workbench.action.terminal.new"%string);
        (150%Z, "workbench.action.terminal.sendSequence"%string)].
Proof. vm_compute. reflexivity. Qed.

(** The timer cannot run before its 150 ms have passed. *)
Example early_fire_sample :
  performAll [Render; ClickRun; Tick 149 1700000000300; Fire 0]
    (startup (E := Buffer.TextBuffer) 1700000000123) = None.
Proof. vm_compute. reflexivity. Qed.

(** The text sent is the one read at the click, under the file name made
    from the clock at the click, whatever is typed or cleared meanwhile. *)
Example edit_between_sample :
  option_map (fun w : Workbench Buffer.TextBuffer =>
                sentTexts (invoked (host w)))
    (performAll
       [ClickRun; CallSetValue (lit "print(2)"); Tick 150 1700000000999;
        ClearAction; Fire 0]
       (Buffer.holding (lit "print(1)") 1700000000123)) =
  Some [describedPayload 1700000000123 (lit "print(1)")].
Proof. vm_compute. reflexivity. Qed.

(* ================================================================== *)
(** ** Further properties of the pane *)
(* ================================================================== *)

Section PaneFacts.

Context {E : Type} `{ICodeEditor E}.

Lemma placeholder_not_blank : trim placeholder <> [].
Proof. vm_compute. discriminate. Qed.



Lemma setValue_present (this : MonacoInputViewPane E) (e : E)
  (v : jsstring) :
  _editor this = Some e ->
  _editor (setValue v this) = Some (Host.setValue v e).
Proof. intros He. simpl. now rewrite He. Qed.

Lemma clearContent_present (this : MonacoInputViewPane E) (e : E) :
  _editor this = Some e ->
  _editor (clearContent this) =
    Some (Host.focus (Host.setValue placeholder e)).
Proof. intros He. simpl. now rewrite He. Qed.

Lemma getValue_clearContent (this : MonacoInputViewPane E) (e : E) :
  _editor this = Some e -> getValue (clearContent this) = placeholder.
Proof.
  intros He.
  rewrite (@getValue_present _ _ _ _ (@clearContent_present this e He)).
  rewrite getValue_focus. apply getValue_setValue.
Qed.


(** Clearing twice shows what clearing once shows, and clearing wins over
    whatever was set before; with the editor missing all of them read the
    empty string. *)
Theorem clearContent_absorbs (this : MonacoInputViewPane E) (v : jsstring) :
  getValue (clearContent (clearContent this)) = getValue (clearContent this) /\
  getValue (clearContent (setValue v this)) = getValue (clearContent this).
Proof.
  destruct (_editor this) as [e|] eqn:He.
  - rewrite (@getValue_clearContent this e He).
    rewrite (@getValue_clearContent _ _ (@clearContent_present this e He)).
    now rewrite (@getValue_clearContent _ _ (@setValue_present this e v He)).
  - destruct this as [ed c m]. simpl in He. subst ed. now split.
Qed.

(** What [focus] and [setVisible] add to the base class never changes the
    text, the container or the model reference, shown or hidden, editor or
    none. *)
Theorem focus_and_setVisible_keep_text (this : MonacoInputViewPane E)
  (visible : bool) :
  getValue (focus this) = getValue this /\
  getValue (setVisible visible this) = getValue this /\
  _editorContainer (focus this) = _editorContainer this /\
  _textModel (focus this) = _textModel this /\
  _editorContainer (setVisible visible this) = _editorContainer this /\
  _textModel (setVisible visible this) = _textModel this.
Proof.
  destruct this as [ed c m]. destruct ed as [e|]; destruct visible;
    unfold getValue, focus, setVisible; simpl;
    rewrite ?getValue_focus, ?getValue_layout; repeat split.
Qed.

(** [runPython] by cases on the guard: it touches only the command log
    and the timer queue, adds one [terminal.new] and one timer of 150 ms
    exactly when the text is not blank, and never sends text itself. *)
Theorem runPython_effect (this : MonacoInputViewPane E)
  (s : State Closure) :
  dateNow (runPython this s) = dateNow s /\
  uptime (runPython this s) = uptime s /\
  console (runPython this s) = console s /\
  invoked (runPython this s) =
    invoked s ++
    (if blank (getValue this) then []
     else [{| invokedAt := uptime s;
              commandId := "workbench.action.terminal.new";
              commandArgs := NoArgs |}]) /\
  timers (runPython this s) =
    timers s ++
    (if blank (getValue this) then []
     else [{| registeredAt := uptime s;
              delay := 150;
              callback :=
                RunPythonTimeout (tempFilePath (dateNow s)) (getValue this)
           |}]) /\
  sentTexts (invoked (runPython this s)) = sentTexts (invoked s).
Proof.
  destruct (blank (getValue this)) eqn:Hb.
  - rewrite (runPython_blank _ _ Hb). rewrite !app_nil_r. repeat split.
  - rewrite runPython_nonblank.
    + cbn [setTimeout executeCommand dateNow uptime console invoked timers].
      repeat split.
      unfold sentTexts. rewrite flat_map_app. simpl. now rewrite app_nil_r.
    + intros Hnil. apply trim_nil in Hnil. congruence.
Qed.

End PaneFacts.


(* ================================================================== *)
(** ** Invariants of the history *)
(* ================================================================== *)

Section Invariants.

Context {E : Type} `{ICodeEditor E}.

(** A property of the host state kept by the four ways the program acts
    on it is kept by every event. *)
Variable P : State Closure -> Prop.

Hypothesis P_run :
  forall (this : MonacoInputViewPane E) s, P s -> P (runPython this s).
Hypothesis P_fire :
  forall i s c s', P s -> takeTimer i s = Some (c, s') -> P (runClosure c s').
Hypothesis P_log : forall args s, P s -> P (console_log args s).
Hypothesis P_tick : forall d now' s, P s -> P (advance d now' s).

Lemma perform_invariant (ev : Event E) (w w' : Workbench E) :
  P (host w) -> perform ev w = Some w' -> P (host w').
Proof.
  intros HP Hp. destruct ev; simpl in Hp;
    try (injection Hp as <-; exact HP).
  - injection Hp as <-. cbn [withHost host]. now apply P_run.
  - injection Hp as <-. unfold ClearMonacoInputAction_run.
    destruct (getActiveViewWithId ID w); exact HP.
  - injection Hp as <-. unfold SaveMonacoInputAction_run.
    destruct (getActiveViewWithId ID w); [|exact HP].
    cbn [host]. now apply P_log.
  - destruct (0 <=? d)%Z; [|discriminate]. injection Hp as <-.
    cbn [withHost host]. now apply P_tick.
  - destruct (takeTimer i (host w)) as [[c s]|] eqn:Htake; [|discriminate].
    injection Hp as <-. cbn [withHost host].
    now apply P_fire with i (host w).
Qed.

Lemma performAll_invariant (evs : list (Event E)) (w w' : Workbench E) :
  P (host w) -> performAll evs w = Some w' -> P (host w').
Proof.
  revert w. induction evs as [|ev evs IH]; intros w HP Hp; simpl in Hp.
  - injection Hp as <-. exact HP.
  - destruct (perform ev w) as [w1|] eqn:Hstep; [|discriminate].
    apply (IH w1); [|exact Hp]. now apply perform_invariant with ev w.
Qed.

End Invariants.

Section Counting.



Lemma takeTimer_inv {C : Type} (i : nat) (s s' : State C) (c : C) :
  takeTimer i s = Some (c, s') ->
  exists tm,
    nth_error (timers s) i = Some tm /\
    (due tm <= uptime s)%Z /\
    c = callback tm /\
    s' = {| dateNow := dateNow s;
            uptime := uptime s;
            invoked := invoked s;
            timers := removeAt i (timers s);
            console := console s |}.
Proof.
  unfold takeTimer. intros Htake.
  destruct (nth_error (timers s) i) as [tm|]; [|discriminate].
  destruct (due tm <=? uptime s)%Z eqn:Hdue; [|discriminate].
  injection Htake as <- <-. apply Z.leb_le in Hdue.
  exists tm. repeat split. exact Hdue.
Qed.

End Counting.



(** The pane uses the command bus for two things only: in every window
    reached from startup, each invocation is [terminal.new] without
    arguments or [sendSequence] with a text. *)
Theorem only_two_commands_invoked
  {E : Type} `{ICodeEditor E} (now : Z) (evs : list (Event E))
  (w : Workbench E) :
  performAll evs (startup now) = Some w ->
  Forall paneInvocation (invoked (host w)).
Proof.
  intros Hreach.
  refine (@performAll_invariant E _
            (fun s => Forall paneInvocation (invoked s))
            _ _ _ _ evs (startup now) w _ Hreach).
  - intros this s HP. destruct (blank (getValue this)) eqn:Hb.
    + now rewrite runPython_blank.
    + rewrite runPython_nonblank
        by (intros Hnil; apply trim_nil in Hnil; congruence).
      cbn [setTimeout executeCommand invoked].
      apply Forall_app. split; [exact HP|].
      constructor; [|constructor]. left. now split.
  - intros i s c s' HP Htake.
    apply takeTimer_inv in Htake.
    destruct Htake as [tm [_ [_ [-> ->]]]].
    destruct (callback tm) as [path code].
    cbn [runClosure executeCommand invoked].
    apply Forall_app. split; [exact HP|].
    constructor; [|constructor]. right. split; [reflexivity|].
    eexists. reflexivity.
  - intros args s HP. exact HP.
  - intros d now' s HP. exact HP.
  - constructor.
Qed.

Lemma only_two_commands_invoked_witness :
  exists w : Workbench Buffer.TextBuffer,
    performAll
      [Render; SetActive true; ClickRun; SaveAction; Tick 150 1700000000300;
       Fire 0; ClearAction]
      (startup 1700000000123) = Some w /\
    Forall paneInvocation (invoked (host w)).
Proof.
  eexists. split; [vm_compute; reflexivity|].
  apply (only_two_commands_invoked 1700000000123
           [Render; SetActive true; ClickRun; SaveAction;
            Tick 150 1700000000300; Fire 0; ClearAction]).
  vm_compute. reflexivity.
Defined.

(** Blank text never reaches the terminal: in every window reached from
    startup, each text sent, and each text still waiting in a timer, was
    built by the template from text that is not blank. *)
Theorem sent_texts_come_from_nonblank_runs
  {E : Type} `{ICodeEditor E} (now : Z) (evs : list (Event E))
  (w : Workbench E) :
  performAll evs (startup now) = Some w ->
  Forall textFromRun (sentTexts (invoked (host w))) /\
  Forall (fun tm => closureFromRun (callback tm)) (timers (host w)).
Proof.
  intros Hreach.
  refine (@performAll_invariant E _
            (fun s =>
               Forall textFromRun (sentTexts (invoked s)) /\
               Forall (fun tm => closureFromRun (callback tm)) (timers s))
            _ _ _ _ evs (startup now) w _ Hreach).
  - intros this s [Hsent Hpending].
    destruct (blank (getValue this)) eqn:Hb.
    + now rewrite runPython_blank.
    + assert (Hne : trim (getValue this) <> [])
        by (intros Hnil; apply trim_nil in Hnil; congruence).
      rewrite (runPython_nonblank _ _ Hne).
      cbn [setTimeout executeCommand invoked timers]. split.
      * unfold sentTexts. rewrite flat_map_app. simpl.
        now rewrite app_nil_r.
      * apply Forall_app. split; [exact Hpending|].
        constructor; [|constructor]. cbn [callback].
        now exists (dateNow s), (getValue this).
  - intros i s c s' [Hsent Hpending] Htake.
    apply takeTimer_inv in Htake.
    destruct Htake as [tm [Hnth [_ [-> ->]]]].
    assert (Hc : closureFromRun (callback tm)).
    { rewrite Forall_forall in Hpending. apply Hpending.
      now apply nth_error_In with i. }
    destruct Hc as [t [code [Hne Hcb]]]. rewrite Hcb.
    cbn [runClosure executeCommand invoked timers]. split.
    + unfold sentTexts. rewrite flat_map_app. apply Forall_app.
      split; [exact Hsent|]. simpl.
      constructor; [|constructor]. now exists t, code.
    + rewrite Forall_forall in *. intros tm' Hin.
      apply Hpending. now apply removeAt_incl with i.
  - intros args s HP. exact HP.
  - intros d now' s HP. exact HP.
  - split; constructor.
Qed.

Lemma sent_texts_come_from_nonblank_runs_witness :
  exists w : Workbench Buffer.TextBuffer,
    performAll
      [Render; ClickRun; CallSetValue (lit " "); ClickRun;
       Tick 150 1700000000300; Fire 0; CallSetValue (lit "x = 1"); ClickRun]
      (startup 1700000000123) = Some w /\
    Forall textFromRun (sentTexts (invoked (host w))) /\
    Forall (fun tm => closureFromRun (callback tm)) (timers (host w)).
Proof.
  eexists. split; [vm_compute; reflexivity|].
  apply (sent_texts_come_from_nonblank_runs 1700000000123
           [Render; ClickRun; CallSetValue (lit " "); ClickRun;
            Tick 150 1700000000300; Fire 0; CallSetValue (lit "x = 1");
            ClickRun]).
  vm_compute. reflexivity.
Defined.

(* ================================================================== *)
(** ** The temp file name *)
(* ================================================================== *)

Section TempFile.

Lemma digits_inj (d1 d2 : Decimal.uint) : digits d1 = digits d2 -> d1 = d2.
Proof.
  revert d2. induction d1; destruct d2; simpl; intros Heq;
    try discriminate Heq; try reflexivity;
    injection Heq as Heq; f_equal; now apply IHd1.
Qed.

Lemma digits_no_minus (d1 d2 : Decimal.uint) :
  digits d1 <> 45%N :: digits d2.
Proof.
  intros Heq.
  assert (Hin : In 45%N (digits d1)) by (rewrite Heq; now left).
  apply digits_range in Hin. lia.
Qed.

Lemma numberToString_inj (a b : Z) :
  numberToString a = numberToString b -> a = b.
Proof.
  unfold numberToString. intros Heq. apply DecimalZ.to_int_inj.
  destruct (Z.to_int a) as [d1|d1], (Z.to_int b) as [d2|d2].
  - f_equal. now apply digits_inj.
  - exfalso. now apply (digits_no_minus d1 d2).
  - exfalso. now apply (digits_no_minus d2 d1).
  - injection Heq as Heq. f_equal. now apply digits_inj.
Qed.

Lemma tempFilePath_inj (t1 t2 : Z) :
  tempFilePath t1 = tempFilePath t2 -> t1 = t2.
Proof.
  unfold tempFilePath, tempFileName. intros Heq.
  apply (app_inv_head (lit "/tmp/")) in Heq.
  apply (app_inv_head (lit "vscode_monaco_")) in Heq.
  apply (app_inv_tail (lit ".py")) in Heq. now apply numberToString_inj.
Qed.

Lemma shellSafe_number (z : Z) (c : N) :
  In c (numberToString z) -> shellSafe c = true.
Proof.
  intros Hin. apply numberToString_range in Hin. unfold shellSafe.
  destruct Hin as [-> | [Hlo Hhi]]; [reflexivity|].
  apply N.leb_le in Hlo, Hhi. now rewrite Hlo, Hhi.
Qed.

End TempFile.

(** Runs started at different readings of [Date.now()] write different
    temp files, and so send different texts even for the same code. *)
Theorem distinct_readings_distinct_files (t1 t2 : Z) (code : jsstring) :
  t1 <> t2 ->
  tempFileName t1 <> tempFileName t2 /\
  tempFilePath t1 <> tempFilePath t2 /\
  terminalText t1 code <> terminalText t2 code.
Proof.
  intros Hne.
  assert (Hpath : tempFilePath t1 <> tempFilePath t2)
    by (intros Heq; now apply Hne, tempFilePath_inj).
  split; [|split; [exact Hpath|]].
  - intros Heq. apply Hpath. unfold tempFilePath. now rewrite Heq.
  - intros Heq. apply Hpath.
    apply (f_equal splitLines) in Heq. rewrite !terminalText_lines in Heq.
    apply (f_equal (@hd jsstring [])) in Heq. cbn [hd] in Heq.
    unfold heredocLine in Heq.
    apply (app_inv_head (lit "clear; cat > ")) in Heq.
    now apply (app_inv_tail (lit " << 'EOF' 2>/dev/null")) in Heq.
Qed.

Lemma distinct_readings_distinct_files_witness :
  tempFileName 1700000000123 <> tempFileName 1700000000124 /\
  tempFilePath 1700000000123 <> tempFilePath 1700000000124 /\
  terminalText 1700000000123 (lit "print(1)") <>
    terminalText 1700000000124 (lit "print(1)").
Proof.
  apply (distinct_readings_distinct_files (t1 := 1700000000123)
           (t2 := 1700000000124) (lit "print(1)")).
  lia.
Defined.

(** The temp file path is one shell word for every reading of the clock,
    negative ones included: it is made of letters, digits and [/ . _ -]
    only, so the unquoted uses of it in the template need no quoting. *)
Theorem tempFilePath_is_one_shell_word (now : Z) :
  Forall (fun c => shellSafe c = true) (tempFilePath now) /\
  startsWith (tempFilePath now) (lit "/tmp/vscode_monaco_") = true.
Proof.
  split; [|reflexivity].
  unfold tempFilePath, tempFileName.
  repeat (apply Forall_app; split).
  - repeat constructor.
  - repeat constructor.
  - apply Forall_forall. intros c. apply shellSafe_number.
  - repeat constructor.
Qed.

(* ================================================================== *)
(** ** What the shell makes of the text *)
(* ================================================================== *)

Section Heredoc.

Lemma isDelimiter_true (l : jsstring) :
  isDelimiter l = true <-> l = delimiterLine.
Proof.
  unfold isDelimiter.
  destruct (list_eq_dec N.eq_dec l delimiterLine); split;
    congruence.
Qed.

Lemma untilDelimiter_cut (body rest : list jsstring) :
  ~ In delimiterLine body ->
  untilDelimiter (body ++ delimiterLine :: rest) = body.
Proof.
  induction body as [|l body IH]; intros Hn; simpl.
  - destruct (isDelimiter delimiterLine) eqn:Hd; [reflexivity|].
    assert (isDelimiter delimiterLine = true) by now apply isDelimiter_true.
    congruence.
  - destruct (isDelimiter l) eqn:Hd.
    + apply isDelimiter_true in Hd. exfalso. apply Hn. now left.
    + rewrite IH; [reflexivity|]. intros Hin. apply Hn. now right.
Qed.

Lemma afterDelimiter_cut (body rest : list jsstring) :
  ~ In delimiterLine body ->
  afterDelimiter (body ++ delimiterLine :: rest) = rest.
Proof.
  induction body as [|l body IH]; intros Hn; simpl.
  - destruct (isDelimiter delimiterLine) eqn:Hd; [reflexivity|].
    assert (isDelimiter delimiterLine = true) by now apply isDelimiter_true.
    congruence.
  - destruct (isDelimiter l) eqn:Hd.
    + apply isDelimiter_true in Hd. exfalso. apply Hn. now left.
    + apply IH. intros Hin. apply Hn. now right.
Qed.

Lemma joinLines_splitLines (s : jsstring) : joinLines (splitLines s) = s.
Proof.
  induction s as [|c s IH]; [reflexivity|].
  simpl. pose proof (splitLines_nonempty s) as Hne.
  destruct (N.eqb_spec c 10) as [->|_].
  - destruct (splitLines s) as [|l ls]; [congruence|].
    cbn [joinLines]. simpl. now rewrite <- IH.
  - destruct (splitLines s) as [|l ls]; [congruence|].
    rewrite <- IH. destruct ls; reflexivity.
Qed.

End Heredoc.

(** When no line of the editor text is [EOF], the here-document of the
    text sent holds the editor text, line for line, and the commands
    after it are the banner, the interpreter and the removal. *)
Theorem heredoc_holds_text_without_delimiter (now : Z) (code : jsstring) :
  ~ In delimiterLine (splitLines code) ->
  heredocBody (terminalText now code) = splitLines code /\
  joinLines (heredocBody (terminalText now code)) = code /\
  commandsAfterHeredoc (terminalText now code) =
    [bannerLine; interpreterLine now; removeLine now; []].
Proof.
  intros Hn. unfold heredocBody, commandsAfterHeredoc.
  rewrite terminalText_lines. cbn [tl].
  rewrite (untilDelimiter_cut _ _ Hn), (afterDelimiter_cut _ _ Hn).
  split; [reflexivity|]. split; [apply joinLines_splitLines | reflexivity].
Qed.

Lemma heredoc_holds_text_without_delimiter_witness :
  heredocBody (terminalText 1700000000123
                 (lit "import sys" ++ nl ++ lit "print(sys.argv)")) =
    splitLines (lit "import sys" ++ nl ++ lit "print(sys.argv)") /\
  joinLines (heredocBody (terminalText 1700000000123
                 (lit "import sys" ++ nl ++ lit "print(sys.argv)"))) =
    lit "import sys" ++ nl ++ lit "print(sys.argv)" /\
  commandsAfterHeredoc (terminalText 1700000000123
                 (lit "import sys" ++ nl ++ lit "print(sys.argv)")) =
    [bannerLine; interpreterLine 1700000000123; removeLine 1700000000123; []].
Proof.
  apply (heredoc_holds_text_without_delimiter 1700000000123
           (lit "import sys" ++ nl ++ lit "print(sys.argv)")).
  vm_compute. intros [Heq | [Heq | []]]; discriminate Heq.
Defined.

(** When a line of the editor text is [EOF], the here-document ends at
    the first such line: the temp file gets only the lines before it, and
    the lines of the editor text after it are run by the shell as
    commands, ahead of the template's own. *)
Theorem heredoc_cut_at_first_delimiter (now : Z) (code : jsstring)
  (body rest : list jsstring) :
  splitLines code = body ++ delimiterLine :: rest ->
  ~ In delimiterLine body ->
  heredocBody (terminalText now code) = body /\
  commandsAfterHeredoc (terminalText now code) =
    rest ++
    [delimiterLine; bannerLine; interpreterLine now; removeLine now; []].
Proof.
  intros Hsplit Hn. unfold heredocBody, commandsAfterHeredoc.
  rewrite terminalText_lines, Hsplit. cbn [tl].
  rewrite <- app_assoc. cbn [app].
  now rewrite (untilDelimiter_cut _ _ Hn), (afterDelimiter_cut _ _ Hn).
Qed.

Lemma heredoc_cut_at_first_delimiter_witness :
  heredocBody (terminalText 1700000000123
                 (lit "print(1)" ++ nl ++ lit "EOF" ++ nl ++
                  lit "echo pwned")) = [lit "print(1)"] /\
  commandsAfterHeredoc (terminalText 1700000000123
                 (lit "print(1)" ++ nl ++ lit "EOF" ++ nl ++
                  lit "echo pwned")) =
    [lit "echo pwned"] ++
    [delimiterLine; bannerLine; interpreterLine 1700000000123;
     removeLine 1700000000123; []].
Proof.
  apply (@heredoc_cut_at_first_delimiter 1700000000123
           (lit "print(1)" ++ nl ++ lit "EOF" ++ nl ++ lit "echo pwned")
           [lit "print(1)"] [lit "echo pwned"]).
  - reflexivity.
  - vm_compute. intros [Heq | []]. discriminate Heq.
Defined.

(* ================================================================== *)
(** ** The actions and the Run button together *)
(* ================================================================== *)

(** Both title-bar actions are guarded by the lookup of the active view:
    when the Monaco Input view is not the active one they leave the window
    exactly as it was. *)
Theorem actions_need_the_active_view
  {E : Type} `{ICodeEditor E} (w : Workbench E) :
  viewActive w = false ->
  ClearMonacoInputAction_run w = w /\
  SaveMonacoInputAction_run w = w /\
  performAll [ClearAction; SaveAction; ClearAction] w = Some w.
Proof.
  intros Ha.
  assert (Hc : ClearMonacoInputAction_run w = w).
  { unfold ClearMonacoInputAction_run.
    now rewrite (getActiveViewWithId_inactive w Ha). }
  assert (Hs : SaveMonacoInputAction_run w = w).
  { unfold SaveMonacoInputAction_run.
    now rewrite (getActiveViewWithId_inactive w Ha). }
  split; [exact Hc|]. split; [exact Hs|].
  cbn [performAll perform]. now rewrite Hc, Hs, Hc.
Qed.

Lemma actions_need_the_active_view_witness :
  ClearMonacoInputAction_run (startup (E := Buffer.TextBuffer) 7) =
    startup 7 /\
  SaveMonacoInputAction_run (startup (E := Buffer.TextBuffer) 7) =
    startup 7 /\
  performAll [ClearAction; SaveAction; ClearAction]
    (startup (E := Buffer.TextBuffer) 7) = Some (startup 7).
Proof.
  apply (actions_need_the_active_view (startup (E := Buffer.TextBuffer) 7)).
  reflexivity.
Defined.

(** The Clear action acts on the editor only: the command log, the
    timers, the console and the clocks are as before, and so are the
    active flag, the container and the model reference; it neither creates
    nor drops the editor. *)
Theorem clear_action_touches_only_the_editor
  {E : Type} `{ICodeEditor E} (w : Workbench E) :
  host (ClearMonacoInputAction_run w) = host w /\
  viewActive (ClearMonacoInputAction_run w) = viewActive w /\
  _editorContainer (view (ClearMonacoInputAction_run w)) =
    _editorContainer (view w) /\
  _textModel (view (ClearMonacoInputAction_run w)) = _textModel (view w) /\
  (_editor (view (ClearMonacoInputAction_run w)) = None <->
   _editor (view w) = None).
Proof.
  unfold ClearMonacoInputAction_run.
  destruct (getActiveViewWithId ID w) as [v|] eqn:Hv.
  - unfold getActiveViewWithId in Hv.
    destruct (String.eqb ID ID && viewActive w); [|discriminate].
    injection Hv as <-. cbn [host viewActive view].
    split; [reflexivity|]. split; [reflexivity|].
    split; [reflexivity|]. split; [reflexivity|].
    simpl. destruct (_editor (view w)); simpl; split; intros Hn;
      solve [discriminate Hn | reflexivity].
  - split; [reflexivity|]. split; [reflexivity|].
    split; [reflexivity|]. split; [reflexivity|]. reflexivity.
Qed.



(** The default content is a program, not a blank: a click on Run right
    after rendering, or right after the Clear action on an active view
    with an editor, passes the guard and sends the default content. *)
Theorem default_content_runs
  {E : Type} `{ICodeEditor E} (w : Workbench E) (first : Event E)
  (d now' : Z) :
  first = Render \/
  (first = ClearAction /\ viewActive w = true /\ _editor (view w) <> None) ->
  (150 <= d)%Z ->
  exists w',
    performAll
      [first; ClickRun; Tick d now'; Fire (List.length (timers (host w)))] w
      = Some w' /\
    sentTexts (invoked (host w')) =
      sentTexts (invoked (host w)) ++
      [terminalText (dateNow (host w)) placeholder].
Proof.
  intros Hfirst Hd.
  assert (Hstep : exists w1, perform first w = Some w1 /\
                             host w1 = host w /\
                             getValue (view w1) = placeholder).
  { destruct Hfirst as [-> | [-> [Ha He]]].
    - eexists. split; [reflexivity|]. split; [reflexivity|].
      cbn [withView view].
      unfold renderBody, createEditor. cbn [_editorContainer].
      erewrite getValue_present by reflexivity.
      now rewrite getValue_setModel.
    - destruct (_editor (view w)) as [e|] eqn:Hed; [|congruence].
      eexists. split; [reflexivity|].
      unfold ClearMonacoInputAction_run.
      rewrite (getActiveViewWithId_active w Ha). cbn [host view].
      split; [reflexivity|]. now apply getValue_clearContent with e. }
  destruct Hstep as [w1 [Hperf [Hhost Htext]]].
  assert (Hne : trim (getValue (view w1)) <> [])
    by (rewrite Htext; apply placeholder_not_blank).
  pose proof (click_wait_fire w1 now' Hne Hd) as Hrun.
  rewrite Hhost, Htext in Hrun.
  eexists. split.
  - change (performAll (first :: ?rest) w)
      with (match perform first w with
            | Some w2 => performAll rest w2
            | None => None
            end).
    rewrite Hperf. exact Hrun.
  - cbn [host invoked]. unfold sentTexts. rewrite flat_map_app.
    reflexivity.
Qed.

Lemma default_content_runs_witness :
  exists w' : Workbench Buffer.TextBuffer,
    performAll [Render; ClickRun; Tick 150 1700000000300; Fire 0]
      (startup 1700000000123) = Some w' /\
    sentTexts (invoked (host w')) =
      [] ++ [terminalText 1700000000123 placeholder].
Proof.
  apply (default_content_runs (startup (E := Buffer.TextBuffer) 1700000000123)
           (first := Render) (d := 150) 1700000000300).
  - left. reflexivity.
  - lia.
Defined.

(** Every click opens a terminal of its own and leaves a timer of its own:
    nothing is reused or merged.  Clicks made while [Date.now()] reads the
    same value all name the same temp file. *)
Theorem every_click_opens_a_terminal
  {E : Type} `{ICodeEditor E} (n : nat) (w : Workbench E) :
  trim (getValue (view w)) <> [] ->
  exists w',
    performAll (repeat ClickRun n) w = Some w' /\
    view w' = view w /\
    invoked (host w') =
      invoked (host w) ++
      repeat {| invokedAt := uptime (host w);
                commandId := "workbench.action.terminal.new";
                commandArgs := NoArgs |} n /\
    timers (host w') =
      timers (host w) ++
      repeat {| registeredAt := uptime (host w);
                delay := 150;
                callback :=
                  RunPythonTimeout (tempFilePath (dateNow (host w)))
                    (getValue (view w)) |} n.
Proof.
  revert w. induction n as [|n IH]; intros w Hne.
  - exists w. simpl. rewrite !app_nil_r. repeat split.
  - destruct (IH (withHost (runPython (view w) (host w)) w)) as
      [w' [Hrun [Hview [Hlog Hq]]]]; [exact Hne|].
    exists w'. split; [exact Hrun|]. split; [exact Hview|].
    rewrite Hlog, Hq. cbn [withHost host view].
    rewrite (runPython_nonblank _ _ Hne).
    cbn [setTimeout executeCommand invoked timers uptime dateNow].
    rewrite <- !app_assoc. split; reflexivity.
Qed.

Lemma every_click_opens_a_terminal_witness :
  exists w',
    performAll (repeat ClickRun 3) (Buffer.holding (lit "print(1)") 9) =
      Some w' /\
    view w' = view (Buffer.holding (lit "print(1)") 9) /\
    invoked (host w') =
      invoked (host (Buffer.holding (lit "print(1)") 9)) ++
      repeat {| invokedAt := 0%Z;
                commandId := "workbench.action.terminal.new";
                commandArgs := NoArgs |} 3 /\
    timers (host w') =
      timers (host (Buffer.holding (lit "print(1)") 9)) ++
      repeat {| registeredAt := 0%Z;
                delay := 150%Z;
                callback :=
                  RunPythonTimeout (tempFilePath 9) (lit "print(1)") |} 3.
Proof.
  apply (every_click_opens_a_terminal (H := Buffer.TextBuffer_editor) 3
           (Buffer.holding (lit "print(1)") 9)).
  vm_compute. discriminate.
Defined.

(* ================================================================== *)
(** ** The text is fixed at the click *)
(* ================================================================== *)

Lemma timers_grow_without_fire {E : Type} `{ICodeEditor E}
  (between : list (Event E)) (w w' : Workbench E) :
  (forall i, ~ In (Fire i) between) ->
  performAll between w = Some w' ->
  exists added, timers (host w') = timers (host w) ++ added.
Proof.
  revert w. induction between as [|ev rest IH]; intros w Hnf Hrun;
    simpl in Hrun.
  - injection Hrun as <-. exists []. now rewrite app_nil_r.
  - destruct (perform ev w) as [w1|] eqn:Hstep; [|discriminate].
    destruct (IH w1) as [added' Hrest];
      [intros i Hin; apply (Hnf i); now right | exact Hrun |].
    pose proof (perform_queueDiscipline _ _ Hstep) as Hq.
    assert (Hgrow : exists added, timers (host w1) = timers (host w) ++ added).
    { destruct ev; cbn [queueDiscipline] in Hq; try exact Hq.
      exfalso. apply (Hnf i). now left. }
    destruct Hgrow as [added Hadd].
    exists (added ++ added'). now rewrite Hrest, Hadd, app_assoc.
Qed.

Lemma nth_error_middle {A : Type} (l r : list A) (x : A) :
  nth_error ((l ++ [x]) ++ r) (List.length l) = Some x.
Proof.
  rewrite nth_error_app1 by (rewrite length_app; simpl; lia).
  apply nth_error_last.
Qed.

(** The callback sends the text as it was at the click, under the file
    name of the clock reading at the click: whatever is typed, set,
    cleared, saved or clicked before the timer runs, the text it sends is
    the one the click read. *)
Theorem sent_text_is_fixed_at_the_click
  {E : Type} `{ICodeEditor E} (w w1 w2 : Workbench E)
  (between : list (Event E)) :
  trim (getValue (view w)) <> [] ->
  (forall i, ~ In (Fire i) between) ->
  performAll (ClickRun :: between) w = Some w1 ->
  perform (Fire (List.length (timers (host w)))) w1 = Some w2 ->
  sentTexts (invoked (host w2)) =
    sentTexts (invoked (host w1)) ++
    [terminalText (dateNow (host w)) (getValue (view w))].
Proof.
  intros Hne Hnf Hrun Hfire.
  cbn [performAll perform] in Hrun.
  destruct (timers_grow_without_fire _ _ Hnf Hrun) as [added Hq].
  cbn [withHost host] in Hq.
  rewrite (runPython_nonblank _ _ Hne) in Hq.
  cbn [setTimeout executeCommand timers uptime dateNow] in Hq.
  cbn [perform] in Hfire.
  destruct (takeTimer (List.length (timers (host w))) (host w1))
    as [[c s]|] eqn:Htake; [|discriminate].
  injection Hfire as <-.
  apply takeTimer_inv in Htake.
  destruct Htake as [tm [Hnth [_ [-> ->]]]].
  rewrite Hq, nth_error_middle in Hnth. injection Hnth as <-.
  cbn [callback withHost host runClosure executeCommand invoked].
  unfold sentTexts. rewrite flat_map_app. reflexivity.
Qed.

Lemma sent_text_is_fixed_at_the_click_witness :
  exists w1 w2 : Workbench Buffer.TextBuffer,
    performAll
      (ClickRun ::
       [CallSetValue (lit "print(2)"); ClearAction; Tick 150 1700000000999;
        ClickRun])
      (Buffer.holding (lit "print(1)") 1700000000123) = Some w1 /\
    perform (Fire 0) w1 = Some w2 /\
    sentTexts (invoked (host w2)) =
      sentTexts (invoked (host w1)) ++
      [terminalText 1700000000123 (lit "print(1)")].
Proof.
  eexists. eexists.
  split; [vm_compute; reflexivity|].
  split; [vm_compute; reflexivity|].
  apply (sent_text_is_fixed_at_the_click (H := Buffer.TextBuffer_editor)
           (Buffer.holding (lit "print(1)") 1700000000123)
           [CallSetValue (lit "print(2)"); ClearAction;
            Tick 150 1700000000999; ClickRun]).
  - vm_compute. discriminate.
  - intros i [Hin | [Hin | [Hin | [Hin | []]]]]; discriminate Hin.
  - vm_compute. reflexivity.
  - vm_compute. reflexivity.
Defined.
